(** * nekro-plugin-weather: the weather lookup adapter, embedded and verified

    The plugin ([src/__init__.py]) has four functions of interest:
    [_get_weather_from_amap] (two HTTP requests to the provider),
    [_format_weather_result] (text rendering), and the two host-callable
    actions [query_weather] and [query_weather_forecast].

    Python values are embedded as follows.
    - [str] is a list of Unicode code points ([pystr]); literals of the source
      are written [u "..."] and decoded from the UTF-8 bytes of this file.
    - What [response.json()] returns is a [json] value; a [dict] is an
      association list in insertion order.
    - [int] is [Z]; a JSON float is a binary64 [float].
    - A Python function is a computation in the monad [M]: it threads the
      [world] (configuration, provider, requests sent so far, log records) and
      returns a value or raises an exception. *)

From Stdlib Require Import Ascii String DecimalString ZArith NArith Bool Lia List.
From Stdlib Require Import PrimFloat.
Import ListNotations.

Set Implicit Arguments.
Set Warnings "-register-all".

(** ** Python strings *)

Module PyStr.

Definition pystr : Type := list N.

(** UTF-8 decoding of a literal: [need] continuation bytes are still
    expected and [acc] holds the bits read so far. *)
Fixpoint utf8_go (acc : N) (need : nat) (bs : list N) : pystr :=
  match bs with
  | [] => []
  | b :: rest =>
      match need with
      | O =>
          if (b <? 128)%N then b :: utf8_go 0%N 0 rest
          else if (b <? 224)%N then utf8_go (b - 192)%N 1 rest
          else if (b <? 240)%N then utf8_go (b - 224)%N 2 rest
          else utf8_go (b - 240)%N 3 rest
      | S O => (acc * 64 + (b - 128))%N :: utf8_go 0%N 0 rest
      | S n => utf8_go (acc * 64 + (b - 128))%N n rest
      end
  end.

Definition u (s : string) : pystr :=
  utf8_go 0%N 0 (map N_of_ascii (list_ascii_of_string s)).

Definition eqb (a b : pystr) : bool :=
  if list_eq_dec N.eq_dec a b then true else false.

(** [str.isspace] on one character (CPython's [_PyUnicode_IsWhitespace]). *)
Definition isspace (c : N) : bool :=
  ((9 <=? c) && (c <=? 13) || (28 <=? c) && (c <=? 32)
   || (c =? 133) || (c =? 160) || (c =? 5760)
   || (8192 <=? c) && (c <=? 8202)
   || (c =? 8232) || (c =? 8233) || (c =? 8239) || (c =? 8287)
   || (c =? 12288))%N.

Fixpoint lstrip (s : pystr) : pystr :=
  match s with
  | [] => []
  | c :: rest => if isspace c then lstrip rest else s
  end.

Definition rstrip (s : pystr) : pystr := rev (lstrip (rev s)).

(** [s.strip()] *)
Definition strip (s : pystr) : pystr := rstrip (lstrip s).

(** [sep.join(parts)] *)
Fixpoint join (sep : pystr) (parts : list pystr) : pystr :=
  match parts with
  | [] => []
  | [p] => p
  | p :: rest => p ++ sep ++ join sep rest
  end.

(** [str(n)] for an [int]. *)
Definition of_Z (z : Z) : pystr :=
  map N_of_ascii (list_ascii_of_string (NilZero.string_of_int (Z.to_int z))).

(** [needle in hay] *)
Definition contains (needle hay : pystr) : Prop :=
  exists before after, hay = before ++ needle ++ after.

End PyStr.
Import PyStr.

(** ** Decoded JSON values and the Python operations the plugin applies to them *)

Inductive json : Type :=
| JNull
| JBool (b : bool)
| JInt (z : Z)
| JFloat (f : float)
| JStr (s : pystr)
| JList (items : list json)
| JDict (entries : list (pystr * json)).

Definition pydict : Type := list (pystr * json).

Inductive exn : Type :=
| RequestError
| HTTPStatusError
| JSONDecodeError
| AttributeError
| TypeError
| KeyError
| IndexError
| OtherException.

Inductive result (A : Type) : Type :=
| Ok (a : A)
| Raise (e : exn).
Arguments Ok {A} a.
Arguments Raise {A} e.

(** [d.get(key)]: the binding of [key], if any (keys of a dict are unique). *)
Fixpoint dict_find (d : pydict) (key : pystr) : option json :=
  match d with
  | [] => None
  | (k, v) :: rest => if PyStr.eqb k key then Some v else dict_find rest key
  end.

(** [d.get(key, default)] on a [dict]. *)
Definition dict_get (d : pydict) (key : pystr) (default : json) : json :=
  match dict_find d key with
  | Some v => v
  | None => default
  end.

(** [bool(v)] *)
Definition truthy (v : json) : bool :=
  match v with
  | JNull => false
  | JBool b => b
  | JInt z => negb (z =? 0)%Z
  | JFloat f => negb (PrimFloat.eqb f 0%float)
  | JStr s => match s with [] => false | _ => true end
  | JList l => match l with [] => false | _ => true end
  | JDict d => match d with [] => false | _ => true end
  end.

(** [v != "..."] against a [str] literal. *)
Definition ne_str (v : json) (lit : pystr) : bool :=
  match v with
  | JStr s => negb (PyStr.eqb s lit)
  | _ => true
  end.

(** [v.get(key, default)]: only a [dict] has the method. *)
Definition py_get (v : json) (key : pystr) (default : json) : result json :=
  match v with
  | JDict d => Ok (dict_get d key default)
  | _ => Raise AttributeError
  end.

(** [v[0]] *)
Definition py_first (v : json) : result json :=
  match v with
  | JList (x :: _) => Ok x
  | JList [] => Raise IndexError
  | JStr (c :: _) => Ok (JStr [c])
  | JStr [] => Raise IndexError
  | JDict _ => Raise KeyError
  | _ => Raise TypeError
  end.

(** [v[key]] for a [str] key. *)
Definition py_item (v : json) (key : pystr) : result json :=
  match v with
  | JDict d => match dict_find d key with Some x => Ok x | None => Raise KeyError end
  | _ => Raise TypeError
  end.

(** [enumerate(v[:3], 1)]: the elements the loop visits (the counter is not
    used). A [dict] cannot be sliced ([TypeError]; [KeyError] from Python
    3.12 on, where a slice is hashable). *)
Definition py_first3 (v : json) : result (list json) :=
  match v with
  | JList l => Ok (firstn 3 l)
  | JStr s => Ok (map (fun c => JStr [c]) (firstn 3 s))
  | _ => Raise TypeError
  end.

(** ** The world a call runs in, and the monad of Python computations *)

(** The plugin's configuration object ([WeatherConfig]). *)
Record WeatherConfig : Type := {
  API_KEY : pystr;
  API_BASE_URL : pystr;
  TIMEOUT : Z
}.

(** [WeatherConfig()] with the defaults of its fields. *)
Definition default_config : WeatherConfig := {|
  API_KEY := [];
  API_BASE_URL := u "https://restapi.amap.com/v3";
  TIMEOUT := 10
|}.

(** One [client.get(url, params=...)] of a client built with [timeout]. *)
Record request : Type := {
  req_timeout : Z;
  req_url : pystr;
  req_params : pydict
}.

(** A response, as far as the code reads it: whether [raise_for_status()]
    passes, and what [json()] decodes ([None]: the body is not JSON). *)
Record response : Type := {
  status_ok : bool;
  body : option json
}.

(** What the transport does with a request: the call raises, or a response
    arrives. *)
Inductive http_outcome : Type :=
| GetRaises (e : exn)
| Responds (r : response).

Inductive log_record : Type :=
| LogInfo (msg : pystr)
| LogWarning (msg : pystr)
| LogError (prefix : pystr) (e : exn).

(** The provider answers a request knowing the requests made before it. *)
Record world : Type := {
  config : WeatherConfig;
  provider : list request -> request -> http_outcome;
  sent : list request;
  logged : list log_record
}.

(** The world with another log, and with another list of requests sent. *)
Definition set_logged (w : world) (records : list log_record) : world :=
  {| config := config w; provider := provider w; sent := sent w; logged := records |}.

Definition set_sent (w : world) (requests : list request) : world :=
  {| config := config w; provider := provider w; sent := requests; logged := logged w |}.

Definition M (A : Type) : Type := world -> result A * world.

Definition ret {A} (a : A) : M A := fun w => (Ok a, w).

Definition raise {A} (e : exn) : M A := fun w => (Raise e, w).

Definition bind {A B} (m : M A) (k : A -> M B) : M B :=
  fun w =>
    match m w with
    | (Ok a, w') => k a w'
    | (Raise e, w') => (Raise e, w')
    end.

Declare Scope py_scope.
Delimit Scope py_scope with py.
Notation "x <- m ;; k" := (bind m (fun x => k))
  (at level 100, m at next level, right associativity) : py_scope.
Notation "m ;;; k" := (bind m (fun _ => k))
  (at level 100, right associativity) : py_scope.
Open Scope py_scope.

(** A pure Python operation that may raise. *)
Definition lift {A} (r : result A) : M A :=
  match r with
  | Ok a => ret a
  | Raise e => raise e
  end.

(** [try: body / except ... as e: handler e], the handlers together catching
    every [Exception]. *)
Definition try_except {A} (body : M A) (handler : exn -> M A) : M A :=
  fun w =>
    match body w with
    | (Ok a, w') => (Ok a, w')
    | (Raise e, w') => handler e w'
    end.

(** [config.FIELD] *)
Definition read_config {A} (field : WeatherConfig -> A) : M A :=
  fun w => (Ok (field (config w)), w).

(** [logger.info(...)], [logger.warning(...)], [logger.error(...)] *)
Definition log (r : log_record) : M unit :=
  fun w => (Ok tt, set_logged w (logged w ++ [r])).

(** [await client.get(url, params=params)] on a client built with [timeout]. *)
Definition client_get (timeout : Z) (url : pystr) (params : pydict) : M response :=
  fun w =>
    let rq := {| req_timeout := timeout; req_url := url; req_params := params |} in
    match provider w (sent w) rq with
    | GetRaises e => (Raise e, set_sent w (sent w ++ [rq]))
    | Responds r => (Ok r, set_sent w (sent w ++ [rq]))
    end.

(** [response.raise_for_status()] *)
Definition raise_for_status (r : response) : M unit :=
  if status_ok r then ret tt else raise HTTPStatusError.

(** [response.json()] *)
Definition response_json (r : response) : M json :=
  match body r with
  | Some j => ret j
  | None => raise JSONDecodeError
  end.

(** ** The plugin *)

Definition nl : pystr := [10%N].

Section Plugin.

(** [str(v)] for a value that is a float, a list or a dict: the interpreter's
    shortest float representation and its quoting of nested strings are not
    modelled; every result below holds whatever they are. *)
Variable str_other : json -> pystr.

(** [str(v)], as an f-string field [{v}] renders it. *)
Definition py_str (v : json) : pystr :=
  match v with
  | JStr s => s
  | JNull => u "None"
  | JBool true => u "True"
  | JBool false => u "False"
  | JInt z => of_Z z
  | _ => str_other v
  end.

(** The body of [for _i, cast in enumerate(casts[:3], 1)], over the elements
    still to visit; [result] is the list the loop appends to. *)
Fixpoint forecast_loop (casts : list json) (result : list pystr) : M (list pystr) :=
  match casts with
  | [] => ret result
  | cast :: rest =>
      date <- lift (py_get cast (u "date") (JStr [])) ;;
      week <- lift (py_get cast (u "week") (JStr [])) ;;
      day_weather <- lift (py_get cast (u "dayweather") (JStr [])) ;;
      night_weather <- lift (py_get cast (u "nightweather") (JStr [])) ;;
      day_temp <- lift (py_get cast (u "daytemp") (JStr [])) ;;
      night_temp <- lift (py_get cast (u "nighttemp") (JStr [])) ;;
      forecast_loop rest
        (result ++
         [u "  " ++ py_str date ++ u " (周" ++ py_str week ++ u "): ☀️"
          ++ py_str day_weather ++ u " " ++ py_str day_temp ++ u "°C / 🌙"
          ++ py_str night_weather ++ u " " ++ py_str night_temp ++ u "°C"])
  end.

Definition _format_weather_result (data : pydict) (include_forecast : bool) : M pystr :=
  let city := dict_get data (u "city") (JStr (u "未知")) in
  let lives := dict_get data (u "lives") (JList []) in
  if negb (truthy lives) then
    ret (u "无法获取 " ++ py_str city ++ u " 的天气信息")
  else
    live <- lift (py_first lives) ;;
    temperature <- lift (py_get live (u "temperature") (JStr (u "N/A"))) ;;
    humidity <- lift (py_get live (u "humidity") (JStr (u "N/A"))) ;;
    windpower <- lift (py_get live (u "windpower") (JStr (u "N/A"))) ;;
    winddirection <- lift (py_get live (u "winddirection") (JStr [])) ;;
    weather <- lift (py_get live (u "weather") (JStr (u "N/A"))) ;;
    visibility <- lift (py_get live (u "visibility") (JStr (u "N/A"))) ;;
    reporttime <- lift (py_get live (u "reporttime") (JStr (u "N/A"))) ;;
    let result :=
      [u "📍 城市: " ++ py_str city;
       u "🌡️ 温度: " ++ py_str temperature ++ u "°C";
       u "💧 湿度: " ++ py_str humidity ++ u "%";
       u "🌬️ 风力: " ++ py_str windpower ++ u " " ++ py_str winddirection ++ u "级";
       u "☁️ 天气: " ++ py_str weather;
       u "👁️ 能见度: " ++ py_str visibility ++ u "米";
       u "📊 报告时间: " ++ py_str reporttime] in
    result <-
      (if include_forecast then
         let forecasts := dict_get data (u "forecasts") (JList []) in
         if truthy forecasts then
           forecast_data <- lift (py_first forecasts) ;;
           casts <- lift (py_get forecast_data (u "casts") (JList [])) ;;
           if truthy casts then
             let result := result ++ [nl ++ u "📅 天气预报:"] in
             visited <- lift (py_first3 casts) ;;
             forecast_loop visited result
           else ret result
         else ret result
       else ret result) ;;
    ret (join nl result).

Definition _get_weather_from_amap (city : pystr) : M (option pydict) :=
  try_except
    (timeout <- read_config TIMEOUT ;;
     base <- read_config API_BASE_URL ;;
     let geo_url := base ++ u "/geocode/geo" in
     key <- read_config API_KEY ;;
     geo_response <-
       client_get timeout geo_url [(u "key", JStr key); (u "address", JStr city)] ;;
     raise_for_status geo_response ;;;
     geo_data <- response_json geo_response ;;
     status <- lift (py_get geo_data (u "status") JNull) ;;
     not_found <-
       (if ne_str status (u "1") then ret true
        else geocodes <- lift (py_get geo_data (u "geocodes") JNull) ;;
             ret (negb (truthy geocodes))) ;;
     if (not_found : bool) then
       (log (LogWarning (u "无法找到城市: " ++ city)) ;;; ret None)
     else
       geocodes <- lift (py_item geo_data (u "geocodes")) ;;
       geocode <- lift (py_first geocodes) ;;
       city_code <- lift (py_get geocode (u "adcode") (JStr [])) ;;
       base <- read_config API_BASE_URL ;;
       let weather_url := base ++ u "/weather/weatherInfo" in
       key <- read_config API_KEY ;;
       weather_response <-
         client_get timeout weather_url
           [(u "key", JStr key); (u "city", city_code);
            (u "extensions", JStr (u "all"))] ;;
       raise_for_status weather_response ;;;
       weather_data <- response_json weather_response ;;
       status <- lift (py_get weather_data (u "status") JNull) ;;
       no_data <-
         (if ne_str status (u "1") then ret true
          else lives <- lift (py_get weather_data (u "lives") JNull) ;;
               ret (negb (truthy lives))) ;;
       if (no_data : bool) then ret None
       else
         lives <- lift (py_get weather_data (u "lives") (JList [])) ;;
         forecasts <- lift (py_get weather_data (u "forecasts") (JList [])) ;;
         ret (Some [(u "city", JStr city); (u "lives", lives);
                    (u "forecasts", forecasts)]))
    (fun e =>
       match e with
       | RequestError => log (LogError (u "请求高德 API 失败: ") e) ;;; ret None
       | _ => log (LogError (u "获取天气信息时发生错误: ") e) ;;; ret None
       end).

(** [not weather_data] for the [dict | None] the lookup returns. *)
Definition no_weather_data (weather_data : option pydict) : bool :=
  match weather_data with
  | None => true
  | Some d => negb (truthy (JDict d))
  end.

(** [_format_weather_result(weather_data, include_forecast=...)] at the call
    sites, where [weather_data] is what the lookup returned ([None] has no
    [get]; the callers test [not weather_data] first). *)
Definition format_data (weather_data : option pydict) (include_forecast : bool) : M pystr :=
  match weather_data with
  | Some data => _format_weather_result data include_forecast
  | None => raise AttributeError
  end.

(** [not city or not city.strip()] *)
Definition invalid_city (city : pystr) : bool :=
  negb (truthy (JStr city)) || negb (truthy (JStr (strip city))).

Definition query_weather (city : pystr) : M pystr :=
  if invalid_city city then ret (u "请提供有效的城市名称")
  else
    log (LogInfo (u "查询城市天气: " ++ city)) ;;;
    weather_data <- _get_weather_from_amap (strip city) ;;
    if no_weather_data weather_data then
      ret (u "❌ 无法获取 " ++ city ++ u " 的天气信息" ++ nl
           ++ u "可能的原因:" ++ nl ++ u "- 城市名称不正确" ++ nl
           ++ u "- API Key 无效" ++ nl ++ u "- 网络连接问题")
    else
      result <- format_data weather_data false ;;
      log (LogInfo (u "成功获取 " ++ city ++ u " 天气信息")) ;;;
      ret result.

Definition query_weather_forecast (city : pystr) (days : Z) : M pystr :=
  if invalid_city city then ret (u "请提供有效的城市名称")
  else
    let days := Z.min (Z.max days 1) 7 in
    log (LogInfo (u "查询城市天气预报: " ++ city ++ u ", " ++ of_Z days ++ u "天")) ;;;
    weather_data <- _get_weather_from_amap (strip city) ;;
    if no_weather_data weather_data then
      ret (u "❌ 无法获取 " ++ city ++ u " 的天气信息")
    else
      result <- format_data weather_data true ;;
      log (LogInfo (u "成功获取 " ++ city ++ u " 天气预报")) ;;;
      ret result.

End Plugin.

Arguments of_Z : simpl never.
Arguments join : simpl never.

(** * Vocabulary of the statements *)

(** A computation is [silent] when it returns the same result in every world
    and leaves the world as it found it: no request sent, no log record. *)
Definition silent {A} (m : M A) : Prop :=
  exists r, forall w, m w = (r, w).

(** A computation is [framed] when its result and the requests it sends do
    not depend on the log it finds, and all it does to the world is to send
    requests and to append log records. *)
Definition framed {A} (m : M A) : Prop :=
  forall w, exists r requests records, forall found,
    m (set_logged w found)
    = (r, set_logged (set_sent w (sent w ++ requests)) (found ++ records)).

(** The geocoding request for a city, and the weather request for a city
    code. *)
Definition geo_request (c : WeatherConfig) (city : pystr) : request :=
  {| req_timeout := TIMEOUT c;
     req_url := API_BASE_URL c ++ u "/geocode/geo";
     req_params := [(u "key", JStr (API_KEY c)); (u "address", JStr city)] |}.

Definition weather_request (c : WeatherConfig) (city_code : json) : request :=
  {| req_timeout := TIMEOUT c;
     req_url := API_BASE_URL c ++ u "/weather/weatherInfo";
     req_params := [(u "key", JStr (API_KEY c)); (u "city", city_code);
                    (u "extensions", JStr (u "all"))] |}.

(** A response that passes [raise_for_status()] and whose body decodes to a
    JSON object. *)
Definition json_object (entries : pydict) : http_outcome :=
  Responds {| status_ok := true; body := Some (JDict entries) |}.

(** The failure texts of the two actions. *)
Definition failure_text (city : pystr) : pystr :=
  u "❌ 无法获取 " ++ city ++ u " 的天气信息".

Definition failure_text_with_causes (city : pystr) : pystr :=
  u "❌ 无法获取 " ++ city ++ u " 的天气信息" ++ nl
  ++ u "可能的原因:" ++ nl ++ u "- 城市名称不正确" ++ nl
  ++ u "- API Key 无效" ++ nl ++ u "- 网络连接问题".

(** The validation message of both actions. *)
Definition validation_message : pystr := u "请提供有效的城市名称".

(** The header line of the forecast section; it starts with a newline of its
    own. *)
Definition forecast_header : pystr := nl ++ u "📅 天气预报:".

(** The seven lines of the live report, in the order of the source, for a
    city text and a text per field of the live-conditions record. *)
Definition live_lines (city : pystr) (slot : pystr -> pystr) : list pystr :=
  [u "📍 城市: " ++ city;
   u "🌡️ 温度: " ++ slot (u "temperature") ++ u "°C";
   u "💧 湿度: " ++ slot (u "humidity") ++ u "%";
   u "🌬️ 风力: " ++ slot (u "windpower") ++ u " " ++ slot (u "winddirection") ++ u "级";
   u "☁️ 天气: " ++ slot (u "weather");
   u "👁️ 能见度: " ++ slot (u "visibility") ++ u "米";
   u "📊 报告时间: " ++ slot (u "reporttime")].

(** The fields of a live-conditions record. *)
Definition live_fields : list pystr :=
  [u "temperature"; u "humidity"; u "windpower"; u "winddirection";
   u "weather"; u "visibility"; u "reporttime"].

(** The elements of a list when all of them are dicts. *)
Fixpoint all_dicts (items : list json) : option (list pydict) :=
  match items with
  | [] => Some []
  | JDict d :: rest =>
      match all_dicts rest with
      | Some ds => Some (d :: ds)
      | None => None
      end
  | _ :: _ => None
  end.

Section Vocabulary.

Variable str_other : json -> pystr.

(** The text of field [key] of a record, [missing] standing for an absent
    field. *)
Definition field_text (record : pydict) (key missing : pystr) : pystr :=
  match dict_find record key with
  | Some v => py_str str_other v
  | None => missing
  end.

(** Every absent field reads [N/A]. *)
Definition slot_na (live : pydict) (key : pystr) : pystr :=
  field_text live key (u "N/A").

(** An absent field reads [N/A], an absent wind direction reads as the empty
    string. *)
Definition slot_live (live : pydict) (key : pystr) : pystr :=
  field_text live key (if PyStr.eqb key (u "winddirection") then [] else u "N/A").

(** The text of the city of a report. *)
Definition city_text (data : pydict) : pystr :=
  py_str str_other (dict_get data (u "city") (JStr (u "未知"))).

(** The line of one forecast-day entry. *)
Definition forecast_line (cast : pydict) : pystr :=
  u "  " ++ field_text cast (u "date") [] ++ u " (周" ++ field_text cast (u "week") []
  ++ u "): ☀️" ++ field_text cast (u "dayweather") [] ++ u " "
  ++ field_text cast (u "daytemp") [] ++ u "°C / 🌙"
  ++ field_text cast (u "nightweather") [] ++ u " "
  ++ field_text cast (u "nighttemp") [] ++ u "°C".

End Vocabulary.

(** ** Concrete inputs for the examples *)

(** A stand-in for the interpreter's [str] of floats and containers. *)
Definition str_blank : json -> pystr := fun _ => [].

(** A world whose provider is unreachable. *)
Definition offline : world := {|
  config := default_config;
  provider := fun _ _ => GetRaises RequestError;
  sent := [];
  logged := []
|}.

(** The report of [test_format_result_with_no_lives]. *)
Definition report_no_lives : pydict :=
  [(u "city", JStr (u "北京")); (u "lives", JList [])].

(** The live-conditions record of [test_format_result_structure]. *)
Definition live_sample : pydict :=
  [(u "temperature", JStr (u "25")); (u "humidity", JStr (u "50"));
   (u "windpower", JStr (u "3")); (u "winddirection", JStr (u "北"));
   (u "weather", JStr (u "晴")); (u "visibility", JStr (u "10"));
   (u "reporttime", JStr (u "2026-01-29 12:00:00"))].

(** The report of [test_format_result_structure]. *)
Definition report_sample : pydict :=
  [(u "city", JStr (u "测试城市")); (u "lives", JList [JDict live_sample]);
   (u "forecasts", JList [])].

(** A report whose live-conditions record has no field at all. *)
Definition report_bare : pydict :=
  [(u "city", JStr (u "北京")); (u "lives", JList [JDict []])].

Definition cast_sample (date week : string) : pydict :=
  [(u "date", JStr (u date)); (u "week", JStr (u week));
   (u "dayweather", JStr (u "晴")); (u "nightweather", JStr (u "多云"));
   (u "daytemp", JStr (u "8")); (u "nighttemp", JStr (u "-2"))].

(** A forecast group of four forecast days. *)
Definition group_four_days : pydict :=
  [(u "casts",
    JList [JDict (cast_sample "2026-01-29" "4");
           JDict (cast_sample "2026-01-30" "5");
           JDict (cast_sample "2026-01-31" "6");
           JDict (cast_sample "2026-02-01" "7")])].

(** A report with four forecast days in its first forecast group. *)
Definition report_four_days : pydict :=
  [(u "city", JStr (u "测试城市")); (u "lives", JList [JDict live_sample]);
   (u "forecasts", JList [JDict group_four_days])].

(** A provider that knows one city: the geocoding request is answered with
    one geocode, the weather request with [weather]. *)
Definition amap_stub (weather : pydict) : world := {|
  config := default_config;
  provider := fun _ rq =>
    match dict_find (req_params rq) (u "address") with
    | Some _ =>
        json_object [(u "status", JStr (u "1"));
                     (u "geocodes", JList [JDict [(u "adcode", JStr (u "110000"))]])]
    | None => json_object weather
    end;
  sent := [];
  logged := []
|}.

(** A weather response with forecasts and an empty [lives]. *)
Definition weather_without_lives : pydict :=
  [(u "status", JStr (u "1")); (u "lives", JList []);
   (u "forecasts", JList [JDict group_four_days])].

(** A weather response with live conditions and four forecast days. *)
Definition weather_four_days : pydict :=
  [(u "status", JStr (u "1")); (u "lives", JList [JDict live_sample]);
   (u "forecasts", JList [JDict group_four_days])].

(** The text before the exception in the error record of the lookup: one for
    a transport error, one for any other exception. *)
Definition error_prefix (e : exn) : pystr :=
  match e with
  | RequestError => u "请求高德 API 失败: "
  | _ => u "获取天气信息时发生错误: "
  end.

(** The exception a response leads to before any of its fields is looked at:
    the one the transport raised, [HTTPStatusError] from
    [raise_for_status()], [JSONDecodeError] from [json()], [AttributeError]
    from [.get] on a body that is no JSON object; [None] for a JSON object. *)
Definition response_failure (o : http_outcome) : option exn :=
  match o with
  | GetRaises e => Some e
  | Responds r =>
      if status_ok r then
        match body r with
        | None => Some JSONDecodeError
        | Some (JDict _) => None
        | Some _ => Some AttributeError
        end
      else Some HTTPStatusError
  end.

(** The geocoding response resolves the city: it is a JSON object with status
    "1" whose geocodes start with an object; [code] is the adcode of that
    first geocode, the empty string when it has none. *)
Definition geocoded (w : world) (city : pystr) (code : json) : Prop :=
  exists geo first others,
    provider w (sent w) (geo_request (config w) city) = json_object geo
    /\ dict_find geo (u "status") = Some (JStr (u "1"))
    /\ dict_find geo (u "geocodes") = Some (JList (JDict first :: others))
    /\ code = dict_get first (u "adcode") (JStr []).

(** A geocoding response for the stub's city, without an adcode. *)
Definition geo_without_adcode : pydict :=
  [(u "status", JStr (u "1")); (u "geocodes", JList [JDict []])].

(** A provider that resolves every city to a geocode without adcode and
    answers the weather request with [answer]. *)
Definition amap_answering (answer : http_outcome) : world := {|
  config := default_config;
  provider := fun _ rq =>
    match dict_find (req_params rq) (u "address") with
    | Some _ => json_object geo_without_adcode
    | None => answer
    end;
  sent := [];
  logged := []
|}.

(** * Verification *)


(** ** Strings *)

Lemma literal_cannot : u "无法获取 " = u "无法获取" ++ u " ".
Proof. reflexivity. Qed.

Lemma literal_failed : u "❌ 无法获取 " = u "❌ " ++ u "无法获取" ++ u " ".
Proof. reflexivity. Qed.

Lemma literal_cross : u "❌ 无法获取 " = (u "❌ " ++ u "无法获取") ++ u " ".
Proof. reflexivity. Qed.

Lemma literal_five : of_Z 5 = u "5".
Proof. reflexivity. Qed.

(** From here on literals stay folded. *)
Opaque u nl.

Lemma lstrip_all_space (s : pystr) :
  Forall (fun c => isspace c = true) s -> lstrip s = [].
Proof.
  induction 1 as [|c rest Hc _ IH]; simpl.
  - reflexivity.
  - now rewrite Hc.
Qed.

Lemma strip_all_space (s : pystr) :
  Forall (fun c => isspace c = true) s -> strip s = [].
Proof.
  intros H. unfold strip, rstrip.
  now rewrite (lstrip_all_space H).
Qed.

Lemma lstrip_suffix (s : pystr) : exists before, s = before ++ lstrip s.
Proof.
  induction s as [|c rest [before IH]]; simpl.
  - now exists [].
  - destruct (isspace c).
    + exists (c :: before). simpl. now rewrite <- IH.
    + now exists [].
Qed.

Lemma rstrip_prefix (s : pystr) : exists after, s = rstrip s ++ after.
Proof.
  unfold rstrip. destruct (lstrip_suffix (rev s)) as [before H].
  exists (rev before). rewrite <- rev_app_distr, <- H. now rewrite rev_involutive.
Qed.

(** The stripped string is a part of the string. *)
Lemma strip_contains (s : pystr) : contains (strip s) s.
Proof.
  unfold strip. destruct (lstrip_suffix s) as [before Hb].
  destruct (rstrip_prefix (lstrip s)) as [after Ha].
  exists before, after. now rewrite <- Ha.
Qed.

Lemma invalid_city_all_space (city : pystr) :
  Forall (fun c => isspace c = true) city -> invalid_city city = true.
Proof.
  intros H. unfold invalid_city.
  rewrite (strip_all_space H). simpl. apply orb_true_r.
Qed.

Lemma contains_mid (a needle b : pystr) : contains needle (a ++ needle ++ b).
Proof. now exists a, b. Qed.

Lemma contains_app_l (needle a b : pystr) :
  contains needle a -> contains needle (a ++ b).
Proof.
  intros (x & y & ->). exists x, (y ++ b).
  now rewrite <- !app_assoc.
Qed.

Lemma contains_app_r (needle a b : pystr) :
  contains needle b -> contains needle (a ++ b).
Proof.
  intros (x & y & ->). exists (a ++ x), y.
  now rewrite <- !app_assoc.
Qed.

Lemma join_cons (sep p : pystr) (rest : list pystr) :
  rest <> [] -> join sep (p :: rest) = p ++ sep ++ join sep rest.
Proof. destruct rest; [congruence | reflexivity]. Qed.

Lemma join_app (sep : pystr) (xs ys : list pystr) :
  xs <> [] -> ys <> [] ->
  join sep (xs ++ ys) = join sep (join sep xs :: ys).
Proof.
  intros Hx Hy. induction xs as [|x xs IH]; [congruence|].
  destruct xs as [|x' xs].
  - reflexivity.
  - change ((x :: x' :: xs) ++ ys) with (x :: ((x' :: xs) ++ ys)).
    rewrite join_cons by (simpl; congruence).
    rewrite IH by congruence.
    rewrite (@join_cons sep (join sep (x' :: xs)) ys Hy).
    rewrite (@join_cons sep (join sep (x :: x' :: xs)) ys Hy).
    rewrite (@join_cons sep x (x' :: xs)) by congruence.
    now rewrite <- !app_assoc.
Qed.

Lemma join_seven (sep a b c d e f g : pystr) (rest : list pystr) :
  rest <> [] ->
  join sep (a :: b :: c :: d :: e :: f :: g :: rest)
  = join sep (join sep [a; b; c; d; e; f; g] :: rest).
Proof.
  intros H. apply (@join_app sep [a; b; c; d; e; f; g] rest); [discriminate|exact H].
Qed.

(** ** Silent computations *)

Lemma silent_ret {A} (a : A) : silent (ret a).
Proof. now exists (Ok a). Qed.

Lemma silent_raise {A} (e : exn) : silent (@raise A e).
Proof. now exists (Raise e). Qed.

Lemma silent_lift {A} (r : result A) : silent (lift r).
Proof. destruct r; [apply silent_ret | apply silent_raise]. Qed.

Lemma silent_bind {A B} (m : M A) (k : A -> M B) :
  silent m -> (forall a, silent (k a)) -> silent (bind m k).
Proof.
  intros [r Hm] Hk. destruct r as [a|e].
  - destruct (Hk a) as [rb Hb]. exists rb. intros w.
    unfold bind. now rewrite Hm, Hb.
  - exists (Raise e). intros w. unfold bind. now rewrite Hm.
Qed.

Lemma silent_if {A} (b : bool) (m1 m2 : M A) :
  silent m1 -> silent m2 -> silent (if b then m1 else m2).
Proof. now destruct b. Qed.

Create HintDb silent.
#[local] Hint Resolve silent_ret silent_raise silent_lift silent_if : silent.

Lemma forecast_loop_silent str_other (casts : list json) :
  forall result, silent (forecast_loop str_other casts result).
Proof.
  induction casts as [|cast rest IH]; intros result; simpl.
  - apply silent_ret.
  - repeat (apply silent_bind; [apply silent_lift | intros ?]).
    apply IH.
Qed.

Lemma format_silent str_other (data : pydict) (include_forecast : bool) :
  silent (_format_weather_result str_other data include_forecast).
Proof.
  unfold _format_weather_result.
  apply silent_if; [apply silent_ret|].
  repeat (apply silent_bind; [apply silent_lift | intros ?]).
  apply silent_bind; [|intros; apply silent_ret].
  repeat apply silent_if; auto with silent.
  repeat (apply silent_bind; [apply silent_lift | intros ?]).
  apply silent_if; auto with silent.
  apply silent_bind; [apply silent_lift | intros ?].
  apply forecast_loop_silent.
Qed.

(** ** The formatter *)

Lemma py_str_dict_get str_other (record : pydict) (key missing : pystr) :
  py_str str_other (dict_get record key (JStr missing))
  = field_text str_other record key missing.
Proof.
  unfold dict_get, field_text. now destruct (dict_find record key).
Qed.

Lemma all_dicts_length (items : list json) (ds : list pydict) :
  all_dicts items = Some ds -> length ds = length items.
Proof.
  revert ds. induction items as [|x rest IH]; simpl; intros ds H.
  - now inversion H.
  - destruct x; try discriminate.
    destruct (all_dicts rest) as [ds'|]; [|discriminate].
    inversion H; subst. simpl. now rewrite (IH ds' eq_refl).
Qed.

Lemma all_dicts_map (ds : list pydict) : all_dicts (map JDict ds) = Some ds.
Proof. induction ds as [|d ds IH]; simpl; [|rewrite IH]; reflexivity. Qed.

Lemma all_dicts_inv (items : list json) (ds : list pydict) :
  all_dicts items = Some ds -> items = map JDict ds.
Proof.
  revert ds. induction items as [|x rest IH]; simpl; intros ds H.
  - now inversion H.
  - destruct x; try discriminate.
    destruct (all_dicts rest) as [ds'|]; [|discriminate].
    inversion H; subst. simpl. now rewrite (IH ds' eq_refl).
Qed.

(** The loop appends one line per element, and raises [AttributeError] at the
    first element that is not a dict. *)
Lemma forecast_loop_run str_other (items : list json) :
  forall (result : list pystr) (w : world),
    forecast_loop str_other items result w
    = (match all_dicts items with
       | Some ds => Ok (result ++ map (forecast_line str_other) ds)
       | None => Raise AttributeError
       end, w).
Proof.
  induction items as [|x rest IH]; intros result w; simpl.
  - unfold ret. now rewrite app_nil_r.
  - destruct x; try reflexivity.
    unfold bind, lift, ret; simpl. rewrite IH.
    destruct (all_dicts rest) as [ds|]; [|reflexivity].
    simpl. rewrite <- app_assoc. simpl.
    unfold forecast_line. now rewrite !py_str_dict_get.
Qed.

Lemma format_no_lives str_other (data : pydict) (include_forecast : bool) (w : world) :
  truthy (dict_get data (u "lives") (JList [])) = false ->
  _format_weather_result str_other data include_forecast w
  = (Ok (u "无法获取 " ++ city_text str_other data ++ u " 的天气信息"), w).
Proof.
  intros H. unfold _format_weather_result. now rewrite H.
Qed.

Lemma format_live str_other (data live : pydict) (others : list json) (w : world) :
  dict_get data (u "lives") (JList []) = JList (JDict live :: others) ->
  _format_weather_result str_other data false w
  = (Ok (join nl (live_lines (city_text str_other data) (slot_live str_other live))), w).
Proof.
  intros H. unfold _format_weather_result. rewrite H.
  unfold bind, lift, ret; simpl.
  unfold live_lines, slot_live, city_text.
  now rewrite !py_str_dict_get.
Qed.

(** With no forecast group to read, the flag changes nothing. *)
Lemma format_no_forecasts str_other (data : pydict) (w : world) :
  truthy (dict_get data (u "forecasts") (JList [])) = false ->
  _format_weather_result str_other data true w
  = _format_weather_result str_other data false w.
Proof.
  intros H. unfold _format_weather_result. now rewrite H.
Qed.

(** With a first forecast group that has no casts, the flag changes nothing. *)
Lemma format_no_casts str_other (data group : pydict) (others : list json) (w : world) :
  dict_get data (u "forecasts") (JList []) = JList (JDict group :: others) ->
  truthy (dict_get group (u "casts") (JList [])) = false ->
  _format_weather_result str_other data true w
  = _format_weather_result str_other data false w.
Proof.
  intros Hf Hc. unfold _format_weather_result. rewrite Hf.
  destruct (negb (truthy (dict_get data (u "lives") (JList [])))); [reflexivity|].
  unfold bind, lift, ret, raise; simpl.
  destruct (py_first (dict_get data (u "lives") (JList []))) as [live|e];
    [|reflexivity].
  destruct live; try reflexivity. simpl. now rewrite Hc.
Qed.

(** With casts in the first forecast group, the header and one line per
    visited cast follow the live report. *)
Lemma format_casts str_other (data live group : pydict) (rest others casts : list json)
    (ds : list pydict) (w : world) :
  dict_get data (u "lives") (JList []) = JList (JDict live :: rest) ->
  dict_get data (u "forecasts") (JList []) = JList (JDict group :: others) ->
  dict_get group (u "casts") (JList []) = JList casts ->
  casts <> [] ->
  all_dicts (firstn 3 casts) = Some ds ->
  _format_weather_result str_other data true w
  = (Ok (join nl (live_lines (city_text str_other data) (slot_live str_other live)
                  ++ forecast_header :: map (forecast_line str_other) ds)), w).
Proof.
  intros Hl Hf Hc Hne Hds. unfold _format_weather_result. rewrite Hl, Hf.
  unfold bind, lift, ret, raise; simpl. rewrite Hc.
  destruct casts as [|c0 casts']; [congruence|].
  cbv beta iota delta [truthy py_first3].
  rewrite forecast_loop_run, Hds.
  unfold live_lines, slot_live, city_text, forecast_header.
  rewrite !py_str_dict_get. simpl. reflexivity.
Qed.

(** Whatever the report, an enabled forecast adds to the disabled output
    nothing, or the header and between one and three forecast lines. *)
Lemma format_forecast_inv str_other (data : pydict) (w w' : world) (s : pystr) :
  _format_weather_result str_other data true w = (Ok s, w') ->
  exists s0,
    _format_weather_result str_other data false w = (Ok s0, w)
    /\ (s = s0
        \/ exists ds, 1 <= length ds <= 3
             /\ s = join nl (s0 :: forecast_header :: map (forecast_line str_other) ds)).
Proof.
  unfold _format_weather_result.
  destruct (negb (truthy (dict_get data (u "lives") (JList [])))).
  { unfold ret. intros [= <- <-]. eauto. }
  unfold bind, lift, ret, raise; simpl.
  destruct (py_first (dict_get data (u "lives") (JList []))) as [live|e];
    [|discriminate].
  destruct live; try discriminate. simpl.
  destruct (truthy (dict_get data (u "forecasts") (JList []))).
  2:{ intros [= <- <-]. eauto. }
  destruct (py_first (dict_get data (u "forecasts") (JList []))) as [group|e];
    [|discriminate].
  destruct group as [| | | | | |group]; try discriminate. simpl.
  destruct (truthy (dict_get group (u "casts") (JList []))) eqn:Ht.
  2:{ intros [= <- <-]. eauto. }
  destruct (py_first3 (dict_get group (u "casts") (JList []))) as [items|e] eqn:H3;
    [|discriminate].
  rewrite forecast_loop_run.
  destruct (all_dicts items) as [ds|] eqn:Hds; [|discriminate].
  intros [= <- <-]. eexists; split; [reflexivity|]. right.
  exists ds. split.
  - rewrite (all_dicts_length _ Hds).
    destruct (dict_get group (u "casts") (JList [])) as [| | | |cs|cs|];
      try discriminate; simpl in H3; inversion H3; subst.
    + destruct cs as [|c cs]; [discriminate|].
      destruct cs as [|c1 [|c2 [|c3 cs]]]; simpl; lia.
    + destruct cs as [|c cs]; [discriminate|].
      destruct cs as [|c1 [|c2 [|c3 cs]]]; simpl; lia.
  - apply join_seven. discriminate.
Qed.

(** Under a live-conditions record the seven live lines open the output,
    whatever the flag; only an enabled forecast can raise. *)
Lemma format_live_prefix str_other (data live : pydict) (others : list json)
    (include_forecast : bool) (w : world) :
  dict_get data (u "lives") (JList []) = JList (JDict live :: others) ->
  exists r,
    _format_weather_result str_other data include_forecast w = (r, w)
    /\ match r with
       | Ok s =>
           exists extra,
             s = join nl (live_lines (city_text str_other data)
                            (slot_live str_other live) ++ extra)
             /\ (include_forecast = false -> extra = [])
       | Raise _ => include_forecast = true
       end.
Proof.
  intros Hl. destruct include_forecast.
  - destruct (format_silent str_other data true) as [r Hr].
    exists r. split; [apply Hr|]. destruct r as [s|e]; [|reflexivity].
    destruct (format_forecast_inv str_other data w (Hr w)) as (s0 & H0 & Hs).
    rewrite (format_live str_other data w Hl) in H0. injection H0 as <-.
    destruct Hs as [->|(ds & _ & ->)].
    + exists []. rewrite app_nil_r. split; [reflexivity|discriminate].
    + exists (forecast_header :: map (forecast_line str_other) ds).
      split; [|discriminate].
      symmetry. apply join_seven. discriminate.
  - eexists. split; [apply (format_live str_other data w Hl)|].
    exists []. now rewrite app_nil_r.
Qed.

(** ** Claims about [_format_weather_result] *)

(** C5. On a report whose [lives] is empty (or absent, or any other falsy
    value) the formatter returns, for either flag and whatever the forecasts
    are, the text "无法获取 <city> 的天气信息": it contains "无法获取" and the
    text of the city, which is the city name itself when the report carries
    one as a string. No request is made and nothing is logged. *)
Theorem C5_empty_lives_cannot_obtain str_other (data : pydict)
    (include_forecast : bool) (w : world) :
  truthy (dict_get data (u "lives") (JList [])) = false ->
  exists s,
    _format_weather_result str_other data include_forecast w = (Ok s, w)
    /\ contains (u "无法获取") s
    /\ contains (city_text str_other data) s
    /\ (forall name, dict_find data (u "city") = Some (JStr name) -> contains name s).
Proof.
  intros H. eexists. split; [apply (format_no_lives str_other data _ w H)|].
  rewrite literal_cannot, <- !app_assoc. repeat split.
  - exists [], (u " " ++ city_text str_other data ++ u " 的天气信息"). reflexivity.
  - apply contains_app_r, contains_app_r. exists [], (u " 的天气信息"). reflexivity.
  - intros name Hn. apply contains_app_r, contains_app_r.
    exists [], (u " 的天气信息"). unfold city_text, dict_get. now rewrite Hn.
Qed.

Lemma C5_empty_lives_witness :
  exists s,
    _format_weather_result str_blank report_no_lives true offline = (Ok s, offline)
    /\ contains (u "无法获取") s
    /\ contains (city_text str_blank report_no_lives) s
    /\ (forall name, dict_find report_no_lives (u "city") = Some (JStr name) ->
        contains name s).
Proof.
  apply (@C5_empty_lives_cannot_obtain str_blank report_no_lives true offline).
  vm_compute. reflexivity.
Defined.

(** C9. The formatter is deterministic and performs no I/O: its result is the
    same in every world, it leaves the world untouched, and a second call on
    the same arguments returns what the first returned. *)
Theorem C9_format_deterministic str_other (data : pydict) (include_forecast : bool) :
  silent (_format_weather_result str_other data include_forecast)
  /\ forall w w',
       fst (_format_weather_result str_other data include_forecast w)
       = fst (_format_weather_result str_other data include_forecast w')
       /\ snd (_format_weather_result str_other data include_forecast w) = w
       /\ _format_weather_result str_other data include_forecast
            (snd (_format_weather_result str_other data include_forecast w))
          = _format_weather_result str_other data include_forecast w.
Proof.
  pose proof (format_silent str_other data include_forecast) as Hs.
  split; [exact Hs|]. destruct Hs as [r Hr]. intros w w'.
  rewrite !Hr. simpl. auto.
Qed.

(** C6. With a live-conditions record and a first forecast group of at least
    four casts, of which the first three are forecast-day records, the enabled
    forecast renders the seven live lines, the header, and exactly three
    forecast lines: those of the first three casts, in the provider's order. *)
Theorem C6_exactly_three_forecast_lines str_other (data live group c1 c2 c3 : pydict)
    (c4 : json) (more others groups : list json) (w : world) :
  dict_get data (u "lives") (JList []) = JList (JDict live :: others) ->
  dict_get data (u "forecasts") (JList []) = JList (JDict group :: groups) ->
  dict_get group (u "casts") (JList [])
  = JList (JDict c1 :: JDict c2 :: JDict c3 :: c4 :: more) ->
  _format_weather_result str_other data true w
  = (Ok (join nl (live_lines (city_text str_other data) (slot_live str_other live)
                  ++ [forecast_header;
                      forecast_line str_other c1;
                      forecast_line str_other c2;
                      forecast_line str_other c3])), w).
Proof.
  intros Hl Hf Hc.
  apply (@format_casts str_other data live group others groups
           (JDict c1 :: JDict c2 :: JDict c3 :: c4 :: more) [c1; c2; c3] w Hl Hf Hc).
  - discriminate.
  - reflexivity.
Qed.

Lemma C6_three_lines_witness :
  _format_weather_result str_blank report_four_days true offline
  = (Ok (join nl (live_lines (city_text str_blank report_four_days)
                    (slot_live str_blank live_sample)
                  ++ [forecast_header;
                      forecast_line str_blank (cast_sample "2026-01-29" "4");
                      forecast_line str_blank (cast_sample "2026-01-30" "5");
                      forecast_line str_blank (cast_sample "2026-01-31" "6")])),
     offline).
Proof.
  apply (@C6_exactly_three_forecast_lines str_blank report_four_days live_sample
           group_four_days (cast_sample "2026-01-29" "4")
           (cast_sample "2026-01-30" "5") (cast_sample "2026-01-31" "6")
           (JDict (cast_sample "2026-02-01" "7")) [] [] [] offline);
    vm_compute; reflexivity.
Defined.

(** C7, as the claim has it, fails: with an empty live-conditions record the
    wind line reads "🌬️ 风力: N/A 级", the absent wind direction being rendered
    as the empty string and not as "N/A". *)
Lemma C7_absent_winddirection_counterexample :
  dict_find [] (u "winddirection") = None
  /\ fst (_format_weather_result str_blank report_bare false offline)
     = Ok (join nl [u "📍 城市: 北京"; u "🌡️ 温度: N/A°C"; u "💧 湿度: N/A%";
                    u "🌬️ 风力: N/A 级"; u "☁️ 天气: N/A"; u "👁️ 能见度: N/A米";
                    u "📊 报告时间: N/A"])
  /\ fst (_format_weather_result str_blank report_bare false offline)
     <> Ok (join nl (live_lines (u "北京") (slot_na str_blank []))).
Proof.
  split; [reflexivity|]. split.
  - vm_compute. reflexivity.
  - vm_compute. intros H. discriminate H.
Qed.

(** C7, amended. Under a live-conditions record the output is the seven live
    lines (followed, with the forecast enabled, by the forecast section), each
    field in its place: a present field by its [str], an absent temperature,
    humidity, windpower, weather, visibility or reporttime as "N/A", and an
    absent winddirection as the empty string. *)
Theorem C7_absent_fields_rendering str_other (data live : pydict) (others : list json)
    (include_forecast : bool) (w : world) :
  dict_get data (u "lives") (JList []) = JList (JDict live :: others) ->
  (exists r,
     _format_weather_result str_other data include_forecast w = (r, w)
     /\ match r with
        | Ok s =>
            exists extra,
              s = join nl (live_lines (city_text str_other data)
                             (slot_live str_other live) ++ extra)
              /\ (include_forecast = false -> extra = [])
        | Raise _ => include_forecast = true
        end)
  /\ (forall key,
        In key [u "temperature"; u "humidity"; u "windpower"; u "weather";
                u "visibility"; u "reporttime"] ->
        dict_find live key = None -> slot_live str_other live key = u "N/A")
  /\ (dict_find live (u "winddirection") = None ->
      slot_live str_other live (u "winddirection") = [])
  /\ (forall key v,
        dict_find live key = Some v ->
        slot_live str_other live key = py_str str_other v).
Proof.
  intros Hl. split; [exact (format_live_prefix str_other data include_forecast w Hl)|].
  unfold slot_live, field_text. repeat split.
  - intros key Hin Hk. rewrite Hk.
    simpl in Hin.
    repeat (destruct Hin as [<-|Hin]; [vm_compute; reflexivity|]).
    contradiction.
  - intros Hk. rewrite Hk. vm_compute. reflexivity.
  - intros key v Hk. now rewrite Hk.
Qed.

Lemma C7_absent_fields_witness :
  fst (_format_weather_result str_blank report_bare false offline)
  = Ok (join nl (live_lines (u "北京") (slot_live str_blank [])))
  /\ slot_live str_blank [] (u "temperature") = u "N/A"
  /\ slot_live str_blank [] (u "winddirection") = [].
Proof.
  assert (Hl : dict_get report_bare (u "lives") (JList []) = JList [JDict []])
    by (vm_compute; reflexivity).
  destruct (@C7_absent_fields_rendering str_blank report_bare [] [] false offline Hl)
    as ((r & Hr & Hshape) & Hna & Hdir & _).
  split; [|split].
  - rewrite Hr. destruct r as [s|e]; [|discriminate Hshape].
    destruct Hshape as (extra & -> & Hextra).
    rewrite (Hextra eq_refl), app_nil_r. reflexivity.
  - apply Hna; [simpl; auto | reflexivity].
  - apply Hdir. reflexivity.
Defined.

(** C8. Under a live-conditions record the output opens with these seven
    lines, in this order: city, temperature, humidity, wind (power, then
    direction), weather, visibility, report time. With the forecast disabled
    they are the whole output; with it enabled the forecast section follows
    them (or the call raises on ill-formed forecast data). *)
Theorem C8_live_lines_order str_other (data live : pydict) (others : list json)
    (include_forecast : bool) (w : world) :
  dict_get data (u "lives") (JList []) = JList (JDict live :: others) ->
  exists r,
    _format_weather_result str_other data include_forecast w = (r, w)
    /\ match r with
       | Ok s =>
           exists extra,
             s = join nl
                   ([u "📍 城市: " ++ city_text str_other data;
                     u "🌡️ 温度: " ++ slot_live str_other live (u "temperature") ++ u "°C";
                     u "💧 湿度: " ++ slot_live str_other live (u "humidity") ++ u "%";
                     u "🌬️ 风力: " ++ slot_live str_other live (u "windpower") ++ u " "
                       ++ slot_live str_other live (u "winddirection") ++ u "级";
                     u "☁️ 天气: " ++ slot_live str_other live (u "weather");
                     u "👁️ 能见度: " ++ slot_live str_other live (u "visibility") ++ u "米";
                     u "📊 报告时间: " ++ slot_live str_other live (u "reporttime")]
                    ++ extra)
             /\ (include_forecast = false -> extra = [])
       | Raise _ => include_forecast = true
       end.
Proof.
  intros Hl. exact (format_live_prefix str_other data include_forecast w Hl).
Qed.

Lemma C8_live_lines_witness :
  fst (_format_weather_result str_blank report_sample false offline)
  = Ok (join nl [u "📍 城市: 测试城市"; u "🌡️ 温度: 25°C"; u "💧 湿度: 50%";
                 u "🌬️ 风力: 3 北级"; u "☁️ 天气: 晴"; u "👁️ 能见度: 10米";
                 u "📊 报告时间: 2026-01-29 12:00:00"]).
Proof.
  assert (Hl : dict_get report_sample (u "lives") (JList [])
               = JList [JDict live_sample]) by (vm_compute; reflexivity).
  destruct (@C8_live_lines_order str_blank report_sample live_sample [] false
              offline Hl) as (r & Hr & Hshape).
  rewrite Hr. destruct r as [s|e]; [|discriminate Hshape].
  destruct Hshape as (extra & -> & Hextra).
  rewrite (Hextra eq_refl). vm_compute. reflexivity.
Defined.

(** C10. With the forecast enabled the formatter reads the first forecast
    group only: two reports that agree on city, lives and the first group give
    the same result whatever groups follow. When the forecasts are empty (or
    absent), or the first group has no casts (or an empty list of them), the
    result is that of the disabled forecast, for every report; and when the
    first group has casts, the header and the forecast lines follow the live
    lines. *)
Theorem C10_first_forecast_group_only str_other (data : pydict) (w : world) :
  (forall data' first groups groups',
     dict_get data' (u "city") (JStr (u "未知"))
     = dict_get data (u "city") (JStr (u "未知")) ->
     dict_get data' (u "lives") (JList []) = dict_get data (u "lives") (JList []) ->
     dict_get data (u "forecasts") (JList []) = JList (first :: groups) ->
     dict_get data' (u "forecasts") (JList []) = JList (first :: groups') ->
     _format_weather_result str_other data' true w
     = _format_weather_result str_other data true w)
  /\ (truthy (dict_get data (u "forecasts") (JList [])) = false ->
      _format_weather_result str_other data true w
      = _format_weather_result str_other data false w)
  /\ (forall group groups,
        dict_get data (u "forecasts") (JList []) = JList (JDict group :: groups) ->
        truthy (dict_get group (u "casts") (JList [])) = false ->
        _format_weather_result str_other data true w
        = _format_weather_result str_other data false w)
  /\ (forall live others group groups casts ds,
        dict_get data (u "lives") (JList []) = JList (JDict live :: others) ->
        dict_get data (u "forecasts") (JList []) = JList (JDict group :: groups) ->
        dict_get group (u "casts") (JList []) = JList casts ->
        casts <> [] ->
        all_dicts (firstn 3 casts) = Some ds ->
        _format_weather_result str_other data true w
        = (Ok (join nl (live_lines (city_text str_other data)
                          (slot_live str_other live)
                        ++ forecast_header :: map (forecast_line str_other) ds)), w)).
Proof.
  repeat split.
  - intros data' first groups groups' Hc Hl Hf Hf'.
    unfold _format_weather_result. rewrite Hc, Hl, Hf, Hf'. reflexivity.
  - apply format_no_forecasts.
  - intros group groups. apply format_no_casts.
  - intros live others group groups casts ds. apply format_casts.
Qed.

(** ** Framed computations *)

Lemma world_eta (w : world) : set_logged w (logged w) = w.
Proof. now destruct w. Qed.

Lemma framed_silent {A} (m : M A) : silent m -> framed m.
Proof.
  intros [r Hr] w. exists r, [], []. intros found.
  rewrite Hr, !app_nil_r. unfold set_logged, set_sent; simpl. reflexivity.
Qed.

Lemma framed_log (r : log_record) : framed (log r).
Proof.
  intros w. exists (Ok tt), [], [r]. intros found.
  unfold log, set_logged, set_sent; simpl. now rewrite app_nil_r.
Qed.

Lemma framed_read_config {A} (field : WeatherConfig -> A) : framed (read_config field).
Proof.
  intros w. exists (Ok (field (config w))), [], []. intros found.
  unfold read_config, set_logged, set_sent; simpl. now rewrite !app_nil_r.
Qed.

Lemma framed_client_get (timeout : Z) (url : pystr) (params : pydict) :
  framed (client_get timeout url params).
Proof.
  intros w.
  set (rq := {| req_timeout := timeout; req_url := url; req_params := params |}).
  destruct (provider w (sent w) rq) as [e|r] eqn:Hp.
  - exists (Raise e), [rq], []. intros found.
    unfold client_get, set_logged, set_sent; simpl. fold rq. rewrite Hp.
    simpl. now rewrite app_nil_r.
  - exists (Ok r), [rq], []. intros found.
    unfold client_get, set_logged, set_sent; simpl. fold rq. rewrite Hp.
    simpl. now rewrite app_nil_r.
Qed.

Lemma framed_bind {A B} (m : M A) (k : A -> M B) :
  framed m -> (forall a, framed (k a)) -> framed (bind m k).
Proof.
  intros Hm Hk w. destruct (Hm w) as (r & reqs & recs & Hr).
  destruct r as [a|e].
  - destruct (Hk a (set_sent w (sent w ++ reqs))) as (r' & reqs' & recs' & Hr').
    exists r', (reqs ++ reqs'), (recs ++ recs'). intros found.
    unfold bind. rewrite Hr.
    rewrite Hr'. unfold set_logged, set_sent; simpl.
    now rewrite !app_assoc.
  - exists (Raise e), reqs, recs. intros found. unfold bind. now rewrite Hr.
Qed.

Lemma framed_try_except {A} (body : M A) (handler : exn -> M A) :
  framed body -> (forall e, framed (handler e)) -> framed (try_except body handler).
Proof.
  intros Hm Hk w. destruct (Hm w) as (r & reqs & recs & Hr).
  destruct r as [a|e].
  - exists (Ok a), reqs, recs. intros found. unfold try_except. now rewrite Hr.
  - destruct (Hk e (set_sent w (sent w ++ reqs))) as (r' & reqs' & recs' & Hr').
    exists r', (reqs ++ reqs'), (recs ++ recs'). intros found.
    unfold try_except. rewrite Hr, Hr'. unfold set_logged, set_sent; simpl.
    now rewrite !app_assoc.
Qed.

Lemma framed_if {A} (b : bool) (m1 m2 : M A) :
  framed m1 -> framed m2 -> framed (if b then m1 else m2).
Proof. now destruct b. Qed.

Lemma framed_ret {A} (a : A) : framed (ret a).
Proof. apply framed_silent, silent_ret. Qed.

Lemma framed_lift {A} (r : result A) : framed (lift r).
Proof. apply framed_silent, silent_lift. Qed.

Lemma framed_raise_for_status (r : response) : framed (raise_for_status r).
Proof.
  unfold raise_for_status. apply framed_if; apply framed_silent;
    [apply silent_ret | apply silent_raise].
Qed.

Lemma framed_response_json (r : response) : framed (response_json r).
Proof.
  unfold response_json. destruct (body r); apply framed_silent;
    [apply silent_ret | apply silent_raise].
Qed.

Create HintDb framed.
#[local] Hint Resolve framed_ret framed_lift framed_log framed_read_config
  framed_client_get framed_raise_for_status framed_response_json framed_if : framed.

Ltac framed_steps :=
  repeat first
    [ solve [auto with framed]
    | apply framed_if
    | apply framed_bind; [|intros ?] ].

Lemma fetch_framed (city : pystr) : framed (_get_weather_from_amap city).
Proof.
  unfold _get_weather_from_amap. apply framed_try_except.
  - framed_steps.
  - intros e. destruct e; framed_steps.
Qed.

Lemma format_data_silent str_other (weather_data : option pydict) (flag : bool) :
  silent (format_data str_other weather_data flag).
Proof.
  destruct weather_data; [apply format_silent | apply silent_raise].
Qed.

#[local] Hint Resolve fetch_framed : framed.
#[local] Hint Extern 1 (framed (format_data _ _ _)) =>
  apply framed_silent, format_data_silent : framed.

(** ** Claims about the two actions *)

(** C2. For a city that is empty or made of whitespace only, both actions
    return the validation message "请提供有效的城市名称" and leave the world as
    it was: no request is sent (and nothing is logged). *)
Theorem C2_blank_city_rejected str_other (city : pystr) (days : Z) (w : world) :
  Forall (fun c => isspace c = true) city ->
  query_weather str_other city w = (Ok (u "请提供有效的城市名称"), w)
  /\ query_weather_forecast str_other city days w = (Ok (u "请提供有效的城市名称"), w)
  /\ sent (snd (query_weather str_other city w)) = sent w
  /\ sent (snd (query_weather_forecast str_other city days w)) = sent w.
Proof.
  intros H. pose proof (invalid_city_all_space H) as Hi.
  unfold query_weather, query_weather_forecast. rewrite Hi.
  unfold ret; simpl. auto.
Qed.

Lemma C2_blank_city_witness :
  query_weather str_blank [32; 9; 12288]%N offline
  = (Ok (u "请提供有效的城市名称"), offline)
  /\ query_weather_forecast str_blank [32; 9; 12288]%N 3 offline
     = (Ok (u "请提供有效的城市名称"), offline)
  /\ sent (snd (query_weather str_blank [32; 9; 12288]%N offline)) = sent offline
  /\ sent (snd (query_weather_forecast str_blank [32; 9; 12288]%N 3 offline))
     = sent offline.
Proof.
  apply (@C2_blank_city_rejected str_blank [32; 9; 12288]%N 3 offline).
  repeat constructor.
Defined.

(** What a forecast query does for a valid city: it logs the query with the
    clamped day count, then sends requests and logs further records; neither
    the result, nor the requests, nor the later records depend on [days]. *)
Lemma forecast_query_run str_other (city : pystr) (w : world) :
  invalid_city city = false ->
  exists r requests records, forall days,
    query_weather_forecast str_other city days w
    = (r, set_logged (set_sent w (sent w ++ requests))
            (logged w
             ++ LogInfo (u "查询城市天气预报: " ++ city ++ u ", "
                         ++ of_Z (Z.min (Z.max days 1) 7) ++ u "天")
             :: records)).
Proof.
  intros Hv. unfold query_weather_forecast. rewrite Hv.
  match goal with
  | |- context [bind (log _) (fun _ => ?k)] => set (rest := k)
  end.
  assert (Hf : framed rest) by (unfold rest; framed_steps).
  destruct (Hf w) as (r & requests & records & Hr).
  exists r, requests, records. intros days.
  unfold bind at 1. unfold log. rewrite Hr.
  now rewrite <- app_assoc.
Qed.

(** ** The lookup *)

Lemma try_except_total {A} (body : M A) (handler : exn -> M A) :
  (forall e w, exists a w', handler e w = (Ok a, w')) ->
  forall w, exists a w', try_except body handler w = (Ok a, w').
Proof.
  intros Hh w. unfold try_except.
  destruct (body w) as [[a|e] w1]; [eauto | apply Hh].
Qed.

(** The lookup never raises: whatever goes wrong inside becomes [None]. *)
Lemma fetch_never_raises (city : pystr) (w : world) :
  exists o w', _get_weather_from_amap city w = (Ok o, w').
Proof.
  unfold _get_weather_from_amap. apply try_except_total.
  intros e w0. destruct e; unfold bind, log, ret; simpl; eauto.
Qed.

(** An exception inside the lookup gives [None]. *)
Lemma fetch_none_or_body (w w' : world) (data : pydict) (body : M (option pydict))
    (handler : exn -> M (option pydict)) :
  (forall e w0 w1, handler e w0 <> (Ok (Some data), w1)) ->
  try_except body handler w = (Ok (Some data), w') ->
  body w = (Ok (Some data), w').
Proof.
  intros Hh. unfold try_except.
  destruct (body w) as [[a|e] w1]; [auto|]. intros H. now apply Hh in H.
Qed.

Lemma eqb_eq (a b : pystr) : PyStr.eqb a b = true -> a = b.
Proof. unfold PyStr.eqb. now destruct (list_eq_dec N.eq_dec a b). Qed.

Lemma ne_str_false (v : json) (lit : pystr) : ne_str v lit = false -> v = JStr lit.
Proof.
  destruct v; try discriminate. simpl. intros H.
  apply negb_false_iff, eqb_eq in H. now subst.
Qed.

(** When the geocoding response reports no match (its status is not "1", or
    its geocodes are empty) the lookup logs a warning, returns [None], and
    sends no second request. *)
Lemma fetch_city_not_found (city : pystr) (w : world) (geo : pydict) :
  provider w (sent w) (geo_request (config w) city) = json_object geo ->
  ne_str (dict_get geo (u "status") JNull) (u "1") = true
  \/ truthy (dict_get geo (u "geocodes") JNull) = false ->
  _get_weather_from_amap city w
  = (Ok None,
     set_logged (set_sent w (sent w ++ [geo_request (config w) city]))
       (logged w ++ [LogWarning (u "无法找到城市: " ++ city)])).
Proof.
  intros Hp Hno. unfold geo_request, json_object in Hp.
  unfold _get_weather_from_amap, try_except, bind, read_config, client_get.
  simpl. rewrite Hp. simpl.
  destruct (ne_str (dict_get geo (u "status") JNull) (u "1")) eqn:Hs; simpl.
  - reflexivity.
  - destruct Hno as [Hno|Hno]; [discriminate|]. rewrite Hno. reflexivity.
Qed.

Lemma strip_nil : strip [] = [].
Proof. reflexivity. Qed.

Lemma invalid_city_false_iff (city : pystr) :
  invalid_city city = false <-> strip city <> [].
Proof.
  unfold invalid_city. split.
  - intros H. apply orb_false_iff in H. destruct H as [_ H].
    destruct (strip city); [discriminate|discriminate].
  - intros H. apply orb_false_iff. split.
    + destruct city; [now rewrite strip_nil in H|reflexivity].
    + destruct (strip city); [congruence|reflexivity].
Qed.

(** C3. For a city that is not blank: the lookup never raises; when it
    returns no data, [query_weather] returns the failure text, which contains
    the city as given and the failure indicator "❌ 无法获取"; and this is what
    happens when the provider's geocoding response reports no match, after
    the single geocoding request. *)
Theorem C3_lookup_failure_is_text str_other (city : pystr) (w : world) :
  strip city <> [] ->
  (exists o w2,
     _get_weather_from_amap (strip city)
       (set_logged w (logged w ++ [LogInfo (u "查询城市天气: " ++ city)]))
     = (Ok o, w2))
  /\ (forall w2,
        _get_weather_from_amap (strip city)
          (set_logged w (logged w ++ [LogInfo (u "查询城市天气: " ++ city)]))
        = (Ok None, w2) ->
        exists s,
          query_weather str_other city w = (Ok s, w2)
          /\ s = u "❌ 无法获取 " ++ city ++ u " 的天气信息" ++ nl
                 ++ u "可能的原因:" ++ nl ++ u "- 城市名称不正确" ++ nl
                 ++ u "- API Key 无效" ++ nl ++ u "- 网络连接问题"
          /\ contains city s
          /\ contains (strip city) s
          /\ contains (u "无法获取") s
          /\ contains (u "❌ ") s)
  /\ (forall geo,
        provider w (sent w) (geo_request (config w) (strip city)) = json_object geo ->
        ne_str (dict_get geo (u "status") JNull) (u "1") = true
        \/ truthy (dict_get geo (u "geocodes") JNull) = false ->
        exists w2,
          query_weather str_other city w
          = (Ok (u "❌ 无法获取 " ++ city ++ u " 的天气信息" ++ nl
                 ++ u "可能的原因:" ++ nl ++ u "- 城市名称不正确" ++ nl
                 ++ u "- API Key 无效" ++ nl ++ u "- 网络连接问题"), w2)
          /\ sent w2 = sent w ++ [geo_request (config w) (strip city)]).
Proof.
  intros Hs. pose proof (proj2 (invalid_city_false_iff city) Hs) as Hv.
  assert (Hq : forall w2,
             _get_weather_from_amap (strip city)
               (set_logged w (logged w ++ [LogInfo (u "查询城市天气: " ++ city)]))
             = (Ok None, w2) ->
             query_weather str_other city w
             = (Ok (u "❌ 无法获取 " ++ city ++ u " 的天气信息" ++ nl
                    ++ u "可能的原因:" ++ nl ++ u "- 城市名称不正确" ++ nl
                    ++ u "- API Key 无效" ++ nl ++ u "- 网络连接问题"), w2)).
  { intros w2 Hf. unfold query_weather. rewrite Hv.
    unfold bind at 1. unfold log. unfold bind. rewrite Hf. reflexivity. }
  split; [apply fetch_never_raises|]. split.
  - intros w2 Hf. eexists. split; [apply (Hq w2 Hf)|].
    split; [reflexivity|]. repeat split.
    + apply contains_mid.
    + apply contains_app_r, contains_app_l. apply strip_contains.
    + rewrite literal_failed, <- !app_assoc. apply contains_mid.
    + rewrite literal_cross, <- !app_assoc. exists [], (u "无法获取" ++ u " " ++ city ++ u " 的天气信息" ++ nl
                 ++ u "可能的原因:" ++ nl ++ u "- 城市名称不正确" ++ nl
                 ++ u "- API Key 无效" ++ nl ++ u "- 网络连接问题"). reflexivity.
  - intros geo Hp Hno. eexists. split.
    + apply Hq.
      apply (@fetch_city_not_found (strip city)
               (set_logged w (logged w ++ [LogInfo (u "查询城市天气: " ++ city)]))
               geo Hp Hno).
    + reflexivity.
Qed.

Lemma C3_lookup_failure_witness :
  exists s w2,
    query_weather str_blank (u "北京") offline = (Ok s, w2)
    /\ contains (u "北京") s
    /\ contains (u "无法获取") s.
Proof.
  assert (Hs : strip (u "北京") <> []) by (vm_compute; discriminate).
  destruct (@C3_lookup_failure_is_text str_blank (u "北京") offline Hs)
    as (_ & Hq & _).
  destruct (Hq (snd (_get_weather_from_amap (strip (u "北京"))
                       (set_logged offline
                          (logged offline ++ [LogInfo (u "查询城市天气: " ++ u "北京")])))))
    as (s & Hqs & _ & Hc & _ & Hf & _).
  - vm_compute. reflexivity.
  - exists s. eexists. split; [exact Hqs|]. split; assumption.
Defined.

Lemma bind_ok {A B} (m : M A) (k : A -> M B) (w w' : world) (b : B) :
  bind m k w = (Ok b, w') ->
  exists a w1, m w = (Ok a, w1) /\ k a w1 = (Ok b, w').
Proof.
  unfold bind. destruct (m w) as [[a|e] w1]; [eauto|discriminate].
Qed.

Lemma lift_ok {A} (r : result A) (w w' : world) (a : A) :
  lift r w = (Ok a, w') -> r = Ok a /\ w' = w.
Proof.
  destruct r; unfold lift, ret, raise; intros [= <- <-]; auto.
Qed.

Lemma read_config_ok {A} (field : WeatherConfig -> A) (w w' : world) (a : A) :
  read_config field w = (Ok a, w') -> a = field (config w) /\ w' = w.
Proof. unfold read_config. intros [= <- <-]; auto. Qed.

Lemma client_get_ok (timeout : Z) (url : pystr) (params : pydict) (w w' : world)
    (r : response) :
  client_get timeout url params w = (Ok r, w') ->
  provider w (sent w)
    {| req_timeout := timeout; req_url := url; req_params := params |} = Responds r
  /\ w' = set_sent w (sent w ++ [{| req_timeout := timeout; req_url := url;
                                    req_params := params |}]).
Proof.
  unfold client_get.
  destruct (provider w (sent w) _) as [e|r0]; [discriminate|].
  intros [= <- <-]; auto.
Qed.

Lemma response_ok (r : response) (w w1 w2 : world) (j : json) (x : unit) :
  raise_for_status r w = (Ok x, w1) ->
  response_json r w1 = (Ok j, w2) ->
  r = {| status_ok := true; body := Some j |} /\ w1 = w /\ w2 = w.
Proof.
  unfold raise_for_status, response_json. destruct r as [ok b]; simpl.
  destruct ok; [|discriminate]. unfold ret. intros [= _ <-].
  destruct b; [|discriminate]. intros [= <- <-]. auto.
Qed.

Ltac step H a w1 Hs := apply bind_ok in H; destruct H as (a & w1 & Hs & H).

Lemma fetch_some_inv (city : pystr) (w w' : world) (data : pydict) :
  _get_weather_from_amap city w = (Ok (Some data), w') ->
  exists geo city_code weather lives,
    provider w (sent w) (geo_request (config w) city) = json_object geo
    /\ provider w (sent w ++ [geo_request (config w) city])
         (weather_request (config w) city_code) = json_object weather
    /\ dict_find weather (u "status") = Some (JStr (u "1"))
    /\ dict_find weather (u "lives") = Some lives
    /\ truthy lives = true
    /\ data = [(u "city", JStr city); (u "lives", lives);
               (u "forecasts", dict_get weather (u "forecasts") (JList []))].
Proof.
  intros H. unfold _get_weather_from_amap in H.
  apply fetch_none_or_body in H.
  2:{ intros e w0 w1. destruct e; unfold bind, log, ret; simpl; discriminate. }
  step H timeout w1 Hs. apply read_config_ok in Hs as [-> ->].
  step H base w1 Hs. apply read_config_ok in Hs as [-> ->].
  step H key w1 Hs. apply read_config_ok in Hs as [-> ->].
  step H geo_response w1 Hs. apply client_get_ok in Hs as [Hgeo ->].
  step H x w1 Hs. step H geo_data w2 Hj.
  destruct (response_ok _ _ Hs Hj) as (-> & -> & ->). clear Hs Hj x.
  step H status w1 Hs. apply lift_ok in Hs as [Hst ->].
  destruct geo_data as [| | | | | |geo]; try discriminate Hst.
  simpl in Hst. injection Hst as <-.
  step H not_found w1 Hs.
  assert (Hfound : not_found = false
                   /\ w1 = set_sent w (sent w ++ [geo_request (config w) city])).
  { destruct (ne_str (dict_get geo (u "status") JNull) (u "1")).
    - unfold ret in Hs. injection Hs as <- <-.
      unfold bind, log, ret in H. discriminate H.
    - step Hs geocodes w2 Hg. apply lift_ok in Hg as [Hg ->].
      unfold ret in Hs. injection Hs as <- <-.
      destruct (negb (truthy geocodes)); [|auto].
      unfold bind, log, ret in H. discriminate H. }
  destruct Hfound as (-> & ->). clear Hs.
  step H geocodes w1 Hs. apply lift_ok in Hs as [_ ->].
  step H geocode w1 Hs. apply lift_ok in Hs as [_ ->].
  step H city_code w1 Hs. apply lift_ok in Hs as [_ ->].
  step H base w1 Hs. apply read_config_ok in Hs as [-> ->].
  step H key w1 Hs. apply read_config_ok in Hs as [-> ->].
  step H weather_response w1 Hs. apply client_get_ok in Hs as [Hweather ->].
  step H x w1 Hs. step H weather_data w2 Hj.
  destruct (response_ok _ _ Hs Hj) as (-> & -> & ->). clear Hs Hj x.
  step H status w1 Hs. apply lift_ok in Hs as [Hst ->].
  destruct weather_data as [| | | | | |weather]; try discriminate Hst.
  simpl in Hst. injection Hst as <-.
  step H no_data w1 Hs.
  destruct (ne_str (dict_get weather (u "status") JNull) (u "1")) eqn:Hstatus.
  { unfold ret in Hs. injection Hs as <- <-. discriminate H. }
  step Hs lives w2 Hl. apply lift_ok in Hl as [Hl ->].
  simpl in Hl. injection Hl as <-.
  unfold ret in Hs. injection Hs as <- <-.
  destruct (truthy (dict_get weather (u "lives") JNull)) eqn:Htruthy;
    [|discriminate H].
  simpl in H. unfold bind, lift, ret in H. simpl in H. injection H as <- <-.
  apply ne_str_false in Hstatus.
  unfold dict_get in Hstatus, Htruthy |- *.
  destruct (dict_find weather (u "status")) as [status|] eqn:Es;
    [|discriminate Hstatus].
  destruct (dict_find weather (u "lives")) as [lives|] eqn:El;
    [|discriminate Htruthy].
  subst status. exists geo, city_code, weather, lives.
  split; [exact Hgeo|]. split; [exact Hweather|].
  split; [exact Es|]. split; [exact El|]. split; [exact Htruthy|].
  reflexivity.
Qed.

(** C4. The lookup returns a record only when the geocoding response and the
    weather response are JSON objects that pass the status check, the weather
    response has status "1" and its [lives] is present and non-empty (truthy);
    the record carries that very [lives], so it is never the empty list (and
    is a non-empty list whenever it is a list). Conversely, when no weather
    response the provider may give at that point has a non-empty [lives], the
    lookup returns [None], whatever the forecasts in the response. *)
Theorem C4_record_needs_live_data (city : pystr) (w : world) :
  (forall data w',
     _get_weather_from_amap city w = (Ok (Some data), w') ->
     exists geo city_code weather lives,
       provider w (sent w) (geo_request (config w) city) = json_object geo
       /\ provider w (sent w ++ [geo_request (config w) city])
            (weather_request (config w) city_code) = json_object weather
       /\ dict_find weather (u "status") = Some (JStr (u "1"))
       /\ dict_find weather (u "lives") = Some lives
       /\ truthy lives = true
       /\ lives <> JList []
       /\ (forall items, lives = JList items -> items <> [])
       /\ data = [(u "city", JStr city); (u "lives", lives);
                  (u "forecasts", dict_get weather (u "forecasts") (JList []))]
       /\ dict_get data (u "lives") (JList []) = lives)
  /\ ((forall city_code weather,
         provider w (sent w ++ [geo_request (config w) city])
           (weather_request (config w) city_code) = json_object weather ->
         truthy (dict_get weather (u "lives") (JList [])) = false) ->
      exists w', _get_weather_from_amap city w = (Ok None, w')).
Proof.
  split.
  - intros data w' H.
    destruct (fetch_some_inv city w H)
      as (geo & city_code & weather & lives & Hg & Hw & Hs & Hl & Ht & ->).
    exists geo, city_code, weather, lives.
    split; [exact Hg|]. split; [exact Hw|]. split; [exact Hs|].
    split; [exact Hl|]. split; [exact Ht|].
    split; [intros ->; discriminate Ht|].
    split; [intros items -> ->; discriminate Ht|].
    split; reflexivity.
  - intros Hempty.
    destruct (fetch_never_raises city w) as (o & w' & Hf).
    destruct o as [data|]; [|eauto].
    destruct (fetch_some_inv city w Hf)
      as (geo & city_code & weather & lives & Hg & Hw & Hs & Hl & Ht & ->).
    specialize (Hempty city_code weather Hw).
    unfold dict_get in Hempty. rewrite Hl in Hempty. congruence.
Qed.

(** The lookup on the two sample responses: forecasts alone give no record. *)
Example fetch_without_lives :
  fst (_get_weather_from_amap (u "北京") (amap_stub weather_without_lives)) = Ok None.
Proof. vm_compute. reflexivity. Qed.

Example fetch_four_days :
  fst (_get_weather_from_amap (u "北京") (amap_stub weather_four_days))
  = Ok (Some [(u "city", JStr (u "北京")); (u "lives", JList [JDict live_sample]);
              (u "forecasts", JList [JDict group_four_days])]).
Proof. vm_compute. reflexivity. Qed.

(** A forecast query for seven days against four forecast days renders
    three. *)
Example forecast_query_seven_days :
  fst (query_weather_forecast str_blank (u "北京") 7 (amap_stub weather_four_days))
  = Ok (join nl [u "📍 城市: 北京"; u "🌡️ 温度: 25°C"; u "💧 湿度: 50%";
                 u "🌬️ 风力: 3 北级"; u "☁️ 天气: 晴"; u "👁️ 能见度: 10米";
                 u "📊 报告时间: 2026-01-29 12:00:00";
                 forecast_header;
                 u "  2026-01-29 (周4): ☀️晴 8°C / 🌙多云 -2°C";
                 u "  2026-01-30 (周5): ☀️晴 8°C / 🌙多云 -2°C";
                 u "  2026-01-31 (周6): ☀️晴 8°C / 🌙多云 -2°C"]).
Proof. vm_compute. reflexivity. Qed.

(** * Further properties of the plugin *)

(** ** What the lookup does to the world *)

Lemma fetch_trace (city : pystr) (w : world) :
  exists o w',
    _get_weather_from_amap city w = (Ok o, w')
    /\ config w' = config w /\ provider w' = provider w
    /\ (sent w' = sent w ++ [geo_request (config w) city]
        \/ exists code,
             sent w' = sent w ++ [geo_request (config w) city;
                                  weather_request (config w) code])
    /\ (logged w' = logged w
        \/ o = None
           /\ ((exists e, logged w' = logged w ++ [LogError (error_prefix e) e])
               \/ sent w' = sent w ++ [geo_request (config w) city]
                  /\ logged w' = logged w ++ [LogWarning (u "无法找到城市: " ++ city)]))
    /\ (o <> None ->
        logged w' = logged w
        /\ exists code,
             sent w' = sent w ++ [geo_request (config w) city;
                                  weather_request (config w) code]).
Proof.
  unfold _get_weather_from_amap, try_except, bind, read_config, client_get,
    raise_for_status, response_json, lift, log, ret, raise, geo_request,
    weather_request.
  simpl.
  repeat match goal with
  | |- context [match provider ?a ?b ?c with _ => _ end] =>
      destruct (provider a b c) as [?|[[|] [?|]]]; simpl
  | |- context [match py_first ?x with _ => _ end] =>
      destruct (py_first x); simpl
  | |- context [match py_item ?x ?k with _ => _ end] =>
      destruct (py_item x k); simpl
  | |- context [match py_get ?x ?k ?d with _ => _ end] =>
      destruct x; simpl
  | |- context [if ne_str ?a ?b then _ else _] => destruct (ne_str a b); simpl
  | |- context [if negb ?b then _ else _] => destruct b; simpl
  | |- context [match ?e with RequestError => _ | _ => _ end] => destruct e; simpl
  end.
  all: rewrite <- ?app_assoc; simpl.
  all: do 2 eexists; (split; [reflexivity|]); simpl.
  all: split; [reflexivity|]; split; [reflexivity|].
  all: split; [first [left; reflexivity | right; eexists; reflexivity]|].
  all: split;
    [first
       [ left; reflexivity
       | right; split; [reflexivity|];
         first
           [ left;
             match goal with
             | |- context [LogError _ ?e] => exists e; reflexivity
             end
           | right; split; reflexivity ] ]
    |].
  all: first
         [ intros Hn; exfalso; apply Hn; reflexivity
         | intros _; split; [reflexivity | eexists; reflexivity] ].
Qed.

(** X1. Whatever the provider does, the lookup sends the geocoding request
    for the city it was given (configured key, timeout and base URL) and at
    most one more request, the weather request for some city code with
    extensions "all"; it sends nothing else, never retries, and leaves the
    configuration, the provider and the requests sent earlier as they were. *)
Theorem X1_lookup_sends_at_most_two_requests (city : pystr) (w : world) :
  let w' := snd (_get_weather_from_amap city w) in
  config w' = config w
  /\ provider w' = provider w
  /\ (sent w' = sent w ++ [geo_request (config w) city]
      \/ exists code,
           sent w' = sent w ++ [geo_request (config w) city;
                                weather_request (config w) code]).
Proof.
  destruct (fetch_trace city w) as (o & w' & Hf & Hc & Hp & Hs & _).
  rewrite Hf. simpl. auto.
Qed.

(** X2. The lookup logs at most one record, a warning or an error, and only
    when it returns [None]; the warning is that of a city not found, after the
    geocoding request alone. A record is returned only after both requests,
    with nothing logged. *)
Theorem X2_lookup_logs_only_failures (city : pystr) (w : world) :
  exists o w',
    _get_weather_from_amap city w = (Ok o, w')
    /\ (logged w' = logged w
        \/ o = None
           /\ ((exists e, logged w' = logged w ++ [LogError (error_prefix e) e])
               \/ sent w' = sent w ++ [geo_request (config w) city]
                  /\ logged w' = logged w ++ [LogWarning (u "无法找到城市: " ++ city)]))
    /\ (o <> None ->
        logged w' = logged w
        /\ exists code,
             sent w' = sent w ++ [geo_request (config w) city;
                                  weather_request (config w) code]).
Proof.
  destruct (fetch_trace city w) as (o & w' & Hf & _ & _ & _ & Hl & Hsome).
  exists o, w'. auto.
Qed.

(** ** The paths of the lookup *)

Lemma eqb_refl (a : pystr) : PyStr.eqb a a = true.
Proof. unfold PyStr.eqb. now destruct (list_eq_dec N.eq_dec a a). Qed.

Lemma set_sent_twice (w : world) (a b : request) :
  set_sent (set_sent w (sent w ++ [a])) (sent (set_sent w (sent w ++ [a])) ++ [b])
  = set_sent w (sent w ++ [a; b]).
Proof. unfold set_sent; simpl. now rewrite <- app_assoc. Qed.

Ltac run_lookup :=
  unfold _get_weather_from_amap, try_except, bind, read_config, client_get,
    raise_for_status, response_json, lift, log, ret, raise; simpl.

(** X3. When a geocoding response fails before its fields are read (the
    transport raises, the status is an error, the body is no JSON or no JSON
    object) the lookup returns [None] after that single request, and logs one
    error record with the exception: under the transport prefix for a
    [RequestError], under the general prefix otherwise. *)
Theorem X3_geocoding_failure (city : pystr) (w : world) (e : exn) :
  response_failure (provider w (sent w) (geo_request (config w) city)) = Some e ->
  _get_weather_from_amap city w
  = (Ok None,
     set_logged (set_sent w (sent w ++ [geo_request (config w) city]))
       (logged w ++ [LogError (error_prefix e) e])).
Proof.
  unfold geo_request. run_lookup.
  destruct (provider w (sent w) _) as [e0|[ok b]]; simpl.
  - intros [= ->]. destruct e; reflexivity.
  - destruct ok; simpl; [|intros [= <-]; reflexivity].
    destruct b as [j|]; [|intros [= <-]; reflexivity].
    destruct j; intros [= <-]; reflexivity.
Qed.

Lemma X3_geocoding_failure_witness :
  _get_weather_from_amap (u "北京") offline
  = (Ok None,
     set_logged (set_sent offline (sent offline ++ [geo_request (config offline) (u "北京")]))
       (logged offline ++ [LogError (error_prefix RequestError) RequestError])).
Proof.
  apply (@X3_geocoding_failure (u "北京") offline RequestError).
  reflexivity.
Defined.

Lemma geocoded_run (city : pystr) (w : world) (code : json)
    (k : Z -> json -> M (option pydict)) (handler : exn -> M (option pydict)) :
  geocoded w city code ->
  try_except
    (timeout <- read_config TIMEOUT ;;
     base <- read_config API_BASE_URL ;;
     key <- read_config API_KEY ;;
     geo_response <-
       client_get timeout (base ++ u "/geocode/geo")
         [(u "key", JStr key); (u "address", JStr city)] ;;
     raise_for_status geo_response ;;;
     geo_data <- response_json geo_response ;;
     status <- lift (py_get geo_data (u "status") JNull) ;;
     not_found <-
       (if ne_str status (u "1") then ret true
        else geocodes <- lift (py_get geo_data (u "geocodes") JNull) ;;
             ret (negb (truthy geocodes))) ;;
     if (not_found : bool) then
       (log (LogWarning (u "无法找到城市: " ++ city)) ;;; ret None)
     else
       geocodes <- lift (py_item geo_data (u "geocodes")) ;;
       geocode <- lift (py_first geocodes) ;;
       city_code <- lift (py_get geocode (u "adcode") (JStr [])) ;;
       k timeout city_code)
    handler w
  = try_except (k (TIMEOUT (config w)) code) handler
      (set_sent w (sent w ++ [geo_request (config w) city])).
Proof.
  intros (geo & first & others & Hp & Hs & Hg & ->).
  unfold geo_request, json_object in Hp.
  unfold try_except, bind, read_config, client_get, raise_for_status,
    response_json, lift, ret; simpl.
  rewrite Hp. simpl. unfold dict_get. rewrite Hs. simpl.
  rewrite eqb_refl. simpl. rewrite Hg. simpl. reflexivity.
Qed.

(** X4. When the city is geocoded and the weather response fails before its
    fields are read, the lookup returns [None] after the two requests and
    logs one error record with the exception. *)
Theorem X4_weather_failure (city : pystr) (w : world) (code : json) (e : exn) :
  geocoded w city code ->
  response_failure
    (provider w (sent w ++ [geo_request (config w) city])
       (weather_request (config w) code)) = Some e ->
  _get_weather_from_amap city w
  = (Ok None,
     set_logged
       (set_sent w (sent w ++ [geo_request (config w) city;
                               weather_request (config w) code]))
       (logged w ++ [LogError (error_prefix e) e])).
Proof.
  intros Hg. unfold _get_weather_from_amap. rewrite (geocoded_run _ _ Hg).
  unfold weather_request.
  unfold try_except, bind, read_config, client_get, raise_for_status,
    response_json, lift, log, ret, raise; simpl.
  destruct (provider w _ _) as [e0|[ok b]]; simpl.
  - intros [= ->]. rewrite <- app_assoc. destruct e; reflexivity.
  - rewrite <- app_assoc.
    destruct ok; simpl; [|intros [= <-]; reflexivity].
    destruct b as [j|]; [|intros [= <-]; reflexivity].
    destruct j; intros [= <-]; reflexivity.
Qed.

(** X5. When the city is geocoded and the weather response is a JSON object
    without live data (its status is not "1", or its lives are absent or
    empty), the lookup returns [None] after the two requests and logs
    nothing: neither a warning nor an error. *)
Theorem X5_no_live_data_is_silent (city : pystr) (w : world) (code : json)
    (weather : pydict) :
  geocoded w city code ->
  provider w (sent w ++ [geo_request (config w) city])
    (weather_request (config w) code) = json_object weather ->
  ne_str (dict_get weather (u "status") JNull) (u "1") = true
  \/ truthy (dict_get weather (u "lives") JNull) = false ->
  _get_weather_from_amap city w
  = (Ok None,
     set_sent w (sent w ++ [geo_request (config w) city;
                            weather_request (config w) code])).
Proof.
  intros Hg Hp Hno. unfold _get_weather_from_amap. rewrite (geocoded_run _ _ Hg).
  unfold weather_request, json_object in Hp.
  unfold try_except, bind, read_config, client_get, raise_for_status,
    response_json, lift, log, ret, raise; simpl.
  rewrite Hp. simpl. rewrite <- app_assoc.
  destruct (ne_str (dict_get weather (u "status") JNull) (u "1")); simpl.
  - reflexivity.
  - destruct Hno as [Hno|Hno]; [discriminate|]. rewrite Hno. reflexivity.
Qed.

(** X6. When the city is geocoded and the weather response is a JSON object
    with status "1" and non-empty lives, the lookup returns a record after
    the two requests and logs nothing. The record's city is the city the
    lookup was given (not a name from the provider), its lives are those of
    the response, and its forecasts those of the response, or the empty list
    when the response has none. *)
Theorem X6_lookup_success (city : pystr) (w : world) (code : json) (weather : pydict) :
  geocoded w city code ->
  provider w (sent w ++ [geo_request (config w) city])
    (weather_request (config w) code) = json_object weather ->
  dict_find weather (u "status") = Some (JStr (u "1")) ->
  truthy (dict_get weather (u "lives") JNull) = true ->
  _get_weather_from_amap city w
  = (Ok (Some [(u "city", JStr city);
               (u "lives", dict_get weather (u "lives") (JList []));
               (u "forecasts", dict_get weather (u "forecasts") (JList []))]),
     set_sent w (sent w ++ [geo_request (config w) city;
                            weather_request (config w) code])).
Proof.
  intros Hg Hp Hs Hl. unfold _get_weather_from_amap. rewrite (geocoded_run _ _ Hg).
  unfold weather_request, json_object in Hp.
  unfold try_except, bind, read_config, client_get, raise_for_status,
    response_json, lift, log, ret, raise; simpl.
  rewrite Hp. simpl. rewrite <- app_assoc.
  unfold dict_get at 1. rewrite Hs. simpl. rewrite eqb_refl. simpl.
  rewrite Hl. simpl. reflexivity.
Qed.

Lemma geocoded_stub (answer : http_outcome) (city : pystr) :
  geocoded (amap_answering answer) city (JStr []).
Proof.
  exists geo_without_adcode, [], [].
  repeat split; vm_compute; reflexivity.
Qed.

Lemma X4_weather_failure_witness :
  _get_weather_from_amap (u "北京")
    (amap_answering (Responds {| status_ok := false; body := None |}))
  = (Ok None,
     set_logged
       (set_sent (amap_answering (Responds {| status_ok := false; body := None |}))
          ([] ++ [geo_request default_config (u "北京");
                  weather_request default_config (JStr [])]))
       ([] ++ [LogError (error_prefix HTTPStatusError) HTTPStatusError])).
Proof.
  apply (@X4_weather_failure (u "北京")
           (amap_answering (Responds {| status_ok := false; body := None |}))
           (JStr []) HTTPStatusError).
  - apply geocoded_stub.
  - vm_compute. reflexivity.
Defined.

Lemma X5_no_live_data_witness :
  _get_weather_from_amap (u "北京") (amap_answering (json_object weather_without_lives))
  = (Ok None,
     set_sent (amap_answering (json_object weather_without_lives))
       ([] ++ [geo_request default_config (u "北京");
               weather_request default_config (JStr [])])).
Proof.
  apply (@X5_no_live_data_is_silent (u "北京")
           (amap_answering (json_object weather_without_lives)) (JStr [])
           weather_without_lives).
  - apply geocoded_stub.
  - vm_compute. reflexivity.
  - right. vm_compute. reflexivity.
Defined.

Lemma X6_lookup_success_witness :
  _get_weather_from_amap (u "北京") (amap_answering (json_object weather_four_days))
  = (Ok (Some [(u "city", JStr (u "北京"));
               (u "lives", dict_get weather_four_days (u "lives") (JList []));
               (u "forecasts", dict_get weather_four_days (u "forecasts") (JList []))]),
     set_sent (amap_answering (json_object weather_four_days))
       ([] ++ [geo_request default_config (u "北京");
               weather_request default_config (JStr [])])).
Proof.
  apply (@X6_lookup_success (u "北京")
           (amap_answering (json_object weather_four_days)) (JStr [])
           weather_four_days).
  - apply geocoded_stub.
  - vm_compute. reflexivity.
  - vm_compute. reflexivity.
  - vm_compute. reflexivity.
Defined.

(** ** Validation and stripping *)

Lemma lstrip_head (s : pystr) :
  match lstrip s with
  | [] => True
  | c :: _ => isspace c = false
  end.
Proof.
  induction s as [|c rest IH]; simpl; [exact I|].
  destruct (isspace c) eqn:Hc; [exact IH | exact Hc].
Qed.

Lemma lstrip_nil_all_space (s : pystr) :
  lstrip s = [] -> Forall (fun c => isspace c = true) s.
Proof.
  induction s as [|c rest IH]; simpl; intros H; [constructor|].
  destruct (isspace c) eqn:Hc; [|discriminate].
  constructor; auto.
Qed.

Lemma lstrip_fixed (s : pystr) :
  match s with [] => True | c :: _ => isspace c = false end -> lstrip s = s.
Proof. destruct s as [|c rest]; simpl; [reflexivity|]. now intros ->. Qed.

Lemma lstrip_idempotent (s : pystr) : lstrip (lstrip s) = lstrip s.
Proof. apply lstrip_fixed, lstrip_head. Qed.

Lemma lstrip_snoc (s : pystr) (c : N) :
  isspace c = false -> lstrip (s ++ [c]) = lstrip s ++ [c].
Proof.
  intros Hc. induction s as [|a rest IH]; simpl.
  - now rewrite Hc.
  - destruct (isspace a); [exact IH | reflexivity].
Qed.

Lemma rstrip_cons (c : N) (s : pystr) :
  isspace c = false -> rstrip (c :: s) = c :: rstrip s.
Proof.
  intros Hc. unfold rstrip. simpl.
  rewrite (@lstrip_snoc (rev s) c Hc), rev_app_distr. reflexivity.
Qed.

Lemma rstrip_idempotent (s : pystr) : rstrip (rstrip s) = rstrip s.
Proof.
  unfold rstrip. now rewrite rev_involutive, lstrip_idempotent.
Qed.

Lemma strip_idempotent (s : pystr) : strip (strip s) = strip s.
Proof.
  unfold strip.
  assert (H : lstrip (rstrip (lstrip s)) = rstrip (lstrip s)).
  { pose proof (lstrip_head s) as Hh.
    destruct (lstrip s) as [|c rest]; [reflexivity|].
    rewrite (@rstrip_cons c rest Hh). simpl. now rewrite Hh. }
  rewrite H. apply rstrip_idempotent.
Qed.

Lemma strip_nil_all_space (s : pystr) :
  strip s = [] -> Forall (fun c => isspace c = true) s.
Proof.
  unfold strip. intros H. apply lstrip_nil_all_space.
  pose proof (lstrip_head s) as Hh.
  destruct (lstrip s) as [|c rest]; [reflexivity|].
  rewrite (@rstrip_cons c rest Hh) in H. discriminate H.
Qed.

Lemma invalid_city_iff (city : pystr) :
  invalid_city city = true <-> Forall (fun c => isspace c = true) city.
Proof.
  split; [|apply invalid_city_all_space].
  intros H. apply strip_nil_all_space.
  destruct (strip city) eqn:Hs; [reflexivity|].
  assert (Hv : invalid_city city = false)
    by (apply invalid_city_false_iff; rewrite Hs; discriminate).
  congruence.
Qed.

Lemma invalid_city_strip (city : pystr) :
  invalid_city (strip city) = invalid_city city.
Proof.
  destruct (invalid_city city) eqn:H.
  - apply invalid_city_iff in H. rewrite (strip_all_space H). reflexivity.
  - apply invalid_city_false_iff. rewrite strip_idempotent.
    now apply invalid_city_false_iff.
Qed.

(** ** The actions and the world *)

Lemma fetch_extends (city : pystr) (w : world) :
  exists o w' more_requests more_records,
    _get_weather_from_amap city w = (Ok o, w')
    /\ sent w' = sent w ++ geo_request (config w) city :: more_requests
    /\ logged w' = logged w ++ more_records.
Proof.
  destruct (fetch_trace city w) as (o & w' & Hf & _ & _ & Hs & Hl & _).
  exists o, w'.
  assert (Hs' : exists more, sent w' = sent w ++ geo_request (config w) city :: more).
  { destruct Hs as [Hs|[code Hs]]; rewrite Hs; eauto. }
  assert (Hl' : exists more, logged w' = logged w ++ more).
  { destruct Hl as [Hl|[_ [[e Hl]|[_ Hl]]]]; rewrite Hl; eauto.
    exists []. now rewrite app_nil_r. }
  destruct Hs' as [mr Hs']. destruct Hl' as [ml Hl']. exists mr, ml. auto.
Qed.

(** After its lookup an action sends nothing more, and logs at most the
    record of its success. *)
Lemma action_after_fetch str_other (weather_data : option pydict) (flag : bool)
    (failure : pystr) (success : log_record) (w2 : world) :
  exists tail,
    snd ((if no_weather_data weather_data then ret failure
          else result <- format_data str_other weather_data flag ;;
               log success ;;; ret result) w2)
    = set_logged w2 (logged w2 ++ tail).
Proof.
  destruct (no_weather_data weather_data).
  - exists []. unfold ret; simpl. now rewrite app_nil_r, world_eta.
  - destruct (format_data_silent str_other weather_data flag) as [r Hr].
    unfold bind. rewrite Hr. destruct r as [s|e].
    + exists [success]. reflexivity.
    + exists []. simpl. now rewrite app_nil_r, world_eta.
Qed.

Lemma bind_log {B} (r : log_record) (k : unit -> M B) (w : world) :
  bind (log r) k w = k tt (set_logged w (logged w ++ [r])).
Proof. reflexivity. Qed.

Lemma bind_run {A B} (m : M A) (k : A -> M B) (w w' : world) (a : A) :
  m w = (Ok a, w') -> bind m k w = k a w'.
Proof. intros H. unfold bind. now rewrite H. Qed.

(** The world an action leaves for a valid city: that of its lookup, with at
    most the success record appended. *)
Lemma query_weather_world str_other (city : pystr) (w : world) :
  invalid_city city = false ->
  exists o w2 tail,
    _get_weather_from_amap (strip city)
      (set_logged w (logged w ++ [LogInfo (u "查询城市天气: " ++ city)]))
    = (Ok o, w2)
    /\ snd (query_weather str_other city w) = set_logged w2 (logged w2 ++ tail).
Proof.
  intros Hv. unfold query_weather. rewrite Hv.
  destruct (fetch_never_raises (strip city)
              (set_logged w (logged w ++ [LogInfo (u "查询城市天气: " ++ city)])))
    as (o & w2 & Hf).
  exists o, w2.
  destruct (action_after_fetch str_other o false
              (u "❌ 无法获取 " ++ city ++ u " 的天气信息" ++ nl
               ++ u "可能的原因:" ++ nl ++ u "- 城市名称不正确" ++ nl
               ++ u "- API Key 无效" ++ nl ++ u "- 网络连接问题")
              (LogInfo (u "成功获取 " ++ city ++ u " 天气信息")) w2)
    as [tail Ht].
  exists tail. split; [exact Hf|].
  rewrite bind_log, (@bind_run _ _ _ _ _ _ _ Hf). exact Ht.
Qed.

Lemma query_weather_forecast_world str_other (city : pystr) (days : Z) (w : world) :
  invalid_city city = false ->
  exists o w2 tail,
    _get_weather_from_amap (strip city)
      (set_logged w
         (logged w
          ++ [LogInfo (u "查询城市天气预报: " ++ city ++ u ", "
                       ++ of_Z (Z.min (Z.max days 1) 7) ++ u "天")]))
    = (Ok o, w2)
    /\ snd (query_weather_forecast str_other city days w)
       = set_logged w2 (logged w2 ++ tail).
Proof.
  intros Hv. unfold query_weather_forecast. rewrite Hv.
  match goal with
  | |- context [_get_weather_from_amap (strip city) ?w1] =>
      destruct (fetch_never_raises (strip city) w1) as (o & w2 & Hf)
  end.
  exists o, w2.
  destruct (action_after_fetch str_other o true
              (u "❌ 无法获取 " ++ city ++ u " 的天气信息")
              (LogInfo (u "成功获取 " ++ city ++ u " 天气预报")) w2)
    as [tail Ht].
  exists tail. split; [exact Hf|].
  cbv zeta. rewrite bind_log, (@bind_run _ _ _ _ _ _ _ Hf). exact Ht.
Qed.

(** X7. The validation of the two actions is exact: a city is rejected if
    and only if it is empty or made of whitespace only. For any other city
    each action logs its query first (the live action with the city, the
    forecast action with the city and the clamped day count) and then sends,
    first of all, the geocoding request for the stripped city. *)
Theorem X7_city_rejected_iff_blank str_other (city : pystr) (days : Z) (w : world) :
  (invalid_city city = true <-> Forall (fun c => isspace c = true) city)
  /\ (invalid_city city = false ->
      (exists more_requests more_records,
         sent (snd (query_weather str_other city w))
         = sent w ++ geo_request (config w) (strip city) :: more_requests
         /\ logged (snd (query_weather str_other city w))
            = logged w ++ LogInfo (u "查询城市天气: " ++ city) :: more_records)
      /\ (exists more_requests more_records,
            sent (snd (query_weather_forecast str_other city days w))
            = sent w ++ geo_request (config w) (strip city) :: more_requests
            /\ logged (snd (query_weather_forecast str_other city days w))
               = logged w
                 ++ LogInfo (u "查询城市天气预报: " ++ city ++ u ", "
                             ++ of_Z (Z.min (Z.max days 1) 7) ++ u "天")
                 :: more_records)).
Proof.
  split; [apply invalid_city_iff|]. intros Hv. split.
  - destruct (query_weather_world str_other city w Hv) as (o & w2 & tail & Hf & Hw).
    destruct (fetch_extends (strip city)
                (set_logged w (logged w ++ [LogInfo (u "查询城市天气: " ++ city)])))
      as (o' & w2' & mr & ml & Hf' & Hs & Hl).
    rewrite Hf in Hf'. injection Hf' as <- <-.
    rewrite Hw. simpl. rewrite Hs, Hl. simpl.
    exists mr, (ml ++ tail). split; [reflexivity|].
    now rewrite <- !app_assoc.
  - destruct (query_weather_forecast_world str_other city days w Hv)
      as (o & w2 & tail & Hf & Hw).
    match type of Hf with
    | _get_weather_from_amap _ ?w1 = _ =>
        destruct (fetch_extends (strip city) w1)
          as (o' & w2' & mr & ml & Hf' & Hs & Hl)
    end.
    rewrite Hf in Hf'. injection Hf' as <- <-.
    rewrite Hw. simpl. rewrite Hs, Hl. simpl.
    exists mr, (ml ++ tail). split; [reflexivity|].
    now rewrite <- !app_assoc.
Qed.

(** The requests of a lookup do not depend on the log it finds. *)
Lemma lookup_requests_ignore_log (city : pystr) (w : world) :
  exists requests, forall found o w2,
    _get_weather_from_amap city (set_logged w found) = (o, w2) ->
    sent w2 = sent w ++ requests.
Proof.
  destruct (fetch_framed city w) as (r & requests & records & Hr).
  exists requests. intros found o w2 H. rewrite Hr in H.
  injection H as _ <-. reflexivity.
Qed.

Lemma query_weather_blank str_other (city : pystr) (w : world) :
  invalid_city city = true -> snd (query_weather str_other city w) = w.
Proof. intros H. unfold query_weather. now rewrite H. Qed.

Lemma query_weather_forecast_blank str_other (city : pystr) (days : Z) (w : world) :
  invalid_city city = true -> snd (query_weather_forecast str_other city days w) = w.
Proof. intros H. unfold query_weather_forecast. now rewrite H. Qed.

(** X8. The two actions send the same requests for the same city, whatever
    the day count: the forecast action asks the provider for nothing more
    than the live action does. *)
Theorem X8_actions_send_same_requests str_other (city : pystr) (d1 d2 : Z) (w : world) :
  sent (snd (query_weather str_other city w))
  = sent (snd (query_weather_forecast str_other city d1 w))
  /\ sent (snd (query_weather_forecast str_other city d1 w))
     = sent (snd (query_weather_forecast str_other city d2 w)).
Proof.
  destruct (invalid_city city) eqn:Hv.
  - now rewrite (query_weather_blank _ _ _ Hv),
      !(query_weather_forecast_blank _ _ _ _ Hv).
  - destruct (lookup_requests_ignore_log (strip city) w) as [requests Hreq].
    destruct (query_weather_world str_other city w Hv) as (o & w2 & t & Hf & ->).
    destruct (query_weather_forecast_world str_other city d1 w Hv)
      as (o1 & w3 & t1 & Hf1 & ->).
    destruct (query_weather_forecast_world str_other city d2 w Hv)
      as (o2 & w4 & t2 & Hf2 & ->).
    simpl. rewrite (Hreq _ _ _ Hf), (Hreq _ _ _ Hf1), (Hreq _ _ _ Hf2). auto.
Qed.

(** X9. Whitespace around the city changes neither whether the city is
    accepted nor the requests sent: stripping is idempotent, and each action
    sends for the stripped city exactly the requests it sends for the city as
    given. *)
Theorem X9_surrounding_whitespace_is_ignored str_other (city : pystr) (days : Z)
    (w : world) :
  strip (strip city) = strip city
  /\ invalid_city (strip city) = invalid_city city
  /\ sent (snd (query_weather str_other (strip city) w))
     = sent (snd (query_weather str_other city w))
  /\ sent (snd (query_weather_forecast str_other (strip city) days w))
     = sent (snd (query_weather_forecast str_other city days w)).
Proof.
  split; [apply strip_idempotent|]. split; [apply invalid_city_strip|].
  destruct (invalid_city city) eqn:Hv.
  - pose proof (invalid_city_strip city) as Hs. rewrite Hv in Hs.
    now rewrite !(query_weather_blank _ _ _ Hv), !(query_weather_blank _ _ _ Hs),
      !(query_weather_forecast_blank _ _ _ _ Hv),
      !(query_weather_forecast_blank _ _ _ _ Hs).
  - pose proof (invalid_city_strip city) as Hs. rewrite Hv in Hs.
    destruct (lookup_requests_ignore_log (strip city) w) as [requests Hreq].
    destruct (query_weather_world str_other city w Hv) as (o & w2 & t & Hf & ->).
    destruct (query_weather_world str_other (strip city) w Hs)
      as (o' & w2' & t' & Hf' & ->).
    destruct (query_weather_forecast_world str_other city days w Hv)
      as (o1 & w3 & t1 & Hf1 & ->).
    destruct (query_weather_forecast_world str_other (strip city) days w Hs)
      as (o1' & w3' & t1' & Hf1' & ->).
    rewrite strip_idempotent in Hf', Hf1'.
    simpl. rewrite (Hreq _ _ _ Hf), (Hreq _ _ _ Hf1), (Hreq _ _ _ Hf'),
      (Hreq _ _ _ Hf1'). auto.
Qed.

(** ** The actions after the lookup *)

Lemma fetched_record (city : pystr) (w w' : world) (data : pydict) :
  _get_weather_from_amap city w = (Ok (Some data), w') ->
  dict_get data (u "city") (JStr (u "未知")) = JStr city
  /\ no_weather_data (Some data) = false.
Proof.
  intros H.
  destruct (fetch_some_inv city w H) as (geo & code & weather & lives & _ & _ & _ & _ & _ & ->).
  split; [|reflexivity].
  unfold dict_get. simpl. now rewrite eqb_refl.
Qed.

(** X10. For a city that is not blank, when the lookup returns no data the
    forecast action returns the one-line failure text, which contains the
    city as given and the indicator "无法获取", and logs nothing of its own
    after the lookup. *)
Theorem X10_forecast_failure_text str_other (city : pystr) (days : Z) (w w2 : world) :
  strip city <> [] ->
  _get_weather_from_amap (strip city)
    (set_logged w
       (logged w
        ++ [LogInfo (u "查询城市天气预报: " ++ city ++ u ", "
                     ++ of_Z (Z.min (Z.max days 1) 7) ++ u "天")]))
  = (Ok None, w2) ->
  query_weather_forecast str_other city days w
  = (Ok (u "❌ 无法获取 " ++ city ++ u " 的天气信息"), w2)
  /\ contains city (u "❌ 无法获取 " ++ city ++ u " 的天气信息")
  /\ contains (u "无法获取") (u "❌ 无法获取 " ++ city ++ u " 的天气信息").
Proof.
  intros Hs Hf. apply invalid_city_false_iff in Hs. split; [|split].
  - unfold query_weather_forecast. rewrite Hs. cbv zeta.
    rewrite bind_log, (@bind_run _ _ _ _ _ _ _ Hf). reflexivity.
  - apply contains_mid.
  - rewrite literal_failed, <- !app_assoc. apply contains_mid.
Qed.

Lemma X10_forecast_failure_witness :
  exists w2,
    query_weather_forecast str_blank (u "北京") 3 offline
    = (Ok (u "❌ 无法获取 " ++ u "北京" ++ u " 的天气信息"), w2).
Proof.
  assert (Hs : strip (u "北京") <> []) by (vm_compute; discriminate).
  eexists.
  refine (proj1 (@X10_forecast_failure_text str_blank (u "北京") 3 offline _ Hs _)).
  vm_compute. reflexivity.
Defined.

(** X11. For a city that is not blank, when the lookup returns a record whose
    lives start with a live-conditions object, the live action returns the
    seven live lines and appends the success record to the log. The report
    shows the stripped city, the log records the city as given; the
    forecasts of the record play no part. *)
Theorem X11_live_action_success str_other (city : pystr) (w w2 : world)
    (data live : pydict) (others : list json) :
  strip city <> [] ->
  _get_weather_from_amap (strip city)
    (set_logged w (logged w ++ [LogInfo (u "查询城市天气: " ++ city)]))
  = (Ok (Some data), w2) ->
  dict_get data (u "lives") (JList []) = JList (JDict live :: others) ->
  query_weather str_other city w
  = (Ok (join nl (live_lines (strip city) (slot_live str_other live))),
     set_logged w2 (logged w2 ++ [LogInfo (u "成功获取 " ++ city ++ u " 天气信息")])).
Proof.
  intros Hs Hf Hl. apply invalid_city_false_iff in Hs.
  destruct (fetched_record _ _ Hf) as [Hc Hn].
  unfold query_weather. rewrite Hs.
  rewrite bind_log, (@bind_run _ _ _ _ _ _ _ Hf), Hn.
  unfold format_data. rewrite (@bind_run _ _ _ _ _ _ _ (format_live str_other data w2 Hl)).
  rewrite bind_log. unfold ret, city_text. rewrite Hc. reflexivity.
Qed.

Lemma X11_live_action_witness :
  fst (query_weather str_blank (u " 北京 ") (amap_answering (json_object weather_four_days)))
  = Ok (join nl (live_lines (strip (u " 北京 ")) (slot_live str_blank live_sample))).
Proof.
  assert (Hs : strip (u " 北京 ") <> []) by (vm_compute; discriminate).
  rewrite (@X11_live_action_success str_blank (u " 北京 ")
             (amap_answering (json_object weather_four_days))
             (snd (_get_weather_from_amap (strip (u " 北京 "))
                     (set_logged (amap_answering (json_object weather_four_days))
                        (logged (amap_answering (json_object weather_four_days))
                         ++ [LogInfo (u "查询城市天气: " ++ u " 北京 ")]))))
             [(u "city", JStr (strip (u " 北京 ")));
              (u "lives", JList [JDict live_sample]);
              (u "forecasts", JList [JDict group_four_days])]
             live_sample [] Hs).
  - reflexivity.
  - vm_compute. reflexivity.
  - vm_compute. reflexivity.
Defined.

Lemma format_live_not_object str_other (data : pydict) (x : json) (others : list json)
    (flag : bool) (w : world) :
  dict_get data (u "lives") (JList []) = JList (x :: others) ->
  (forall d, x <> JDict d) ->
  _format_weather_result str_other data flag w = (Raise AttributeError, w).
Proof.
  intros Hl Hx. unfold _format_weather_result. rewrite Hl.
  unfold bind, lift, ret, raise; simpl.
  destruct x; try reflexivity. now destruct (Hx entries).
Qed.

(** X12. The actions do raise on a malformed provider answer: when the
    lookup returns a record whose first live-conditions entry is not a JSON
    object, the formatter raises [AttributeError] for either flag, and the
    live action raises it too, without a success record in the log. *)
Theorem X12_malformed_live_entry_raises str_other (city : pystr) (w w2 : world)
    (data : pydict) (x : json) (others : list json) :
  strip city <> [] ->
  _get_weather_from_amap (strip city)
    (set_logged w (logged w ++ [LogInfo (u "查询城市天气: " ++ city)]))
  = (Ok (Some data), w2) ->
  dict_get data (u "lives") (JList []) = JList (x :: others) ->
  (forall d, x <> JDict d) ->
  (forall flag w0,
     _format_weather_result str_other data flag w0 = (Raise AttributeError, w0))
  /\ query_weather str_other city w = (Raise AttributeError, w2).
Proof.
  intros Hs Hf Hl Hx. apply invalid_city_false_iff in Hs. split.
  - intros flag w0. now apply format_live_not_object with (x := x) (others := others).
  - destruct (fetched_record _ _ Hf) as [_ Hn].
    unfold query_weather. rewrite Hs.
    rewrite bind_log, (@bind_run _ _ _ _ _ _ _ Hf), Hn.
    unfold format_data, bind.
    now rewrite (@format_live_not_object str_other data x others false w2 Hl Hx).
Qed.

Lemma X12_malformed_live_witness :
  fst (query_weather str_blank (u "北京")
         (amap_answering
            (json_object [(u "status", JStr (u "1")); (u "lives", JList [JInt 5])])))
  = Raise AttributeError.
Proof.
  assert (Hs : strip (u "北京") <> []) by (vm_compute; discriminate).
  assert (Hx : forall d, JInt 5 <> JDict d) by (intros d; discriminate).
  refine (f_equal fst
    (proj2 (@X12_malformed_live_entry_raises str_blank (u "北京")
              (amap_answering
                 (json_object [(u "status", JStr (u "1")); (u "lives", JList [JInt 5])]))
              _
              [(u "city", JStr (strip (u "北京"))); (u "lives", JList [JInt 5]);
               (u "forecasts", JList [])]
              (JInt 5) [] Hs _ _ Hx))).
  - vm_compute. reflexivity.
  - vm_compute. reflexivity.
Defined.

Lemma firstn_min {A} (n : nat) (l : list A) : length (firstn n l) = Nat.min n (length l).
Proof. apply length_firstn. Qed.

Lemma all_dicts_none (items : list json) :
  (forall ds, items <> map JDict ds) -> all_dicts items = None.
Proof.
  intros H. destruct (all_dicts items) as [ds|] eqn:E; [|reflexivity].
  now destruct (H ds (all_dicts_inv _ E)).
Qed.

(** X13. For a city that is not blank, when the lookup returns a record with
    a live-conditions object and a first forecast group whose casts are n
    forecast-day objects (n > 0), the forecast action returns the seven live
    lines for the stripped city, the header and min(3, n) forecast lines (one
    per cast, in order), and appends the success record to the log. *)
Theorem X13_forecast_action_success str_other (city : pystr) (days : Z) (w w2 : world)
    (data live group : pydict) (others groups : list json) (ds : list pydict) :
  strip city <> [] ->
  _get_weather_from_amap (strip city)
    (set_logged w
       (logged w
        ++ [LogInfo (u "查询城市天气预报: " ++ city ++ u ", "
                     ++ of_Z (Z.min (Z.max days 1) 7) ++ u "天")]))
  = (Ok (Some data), w2) ->
  dict_get data (u "lives") (JList []) = JList (JDict live :: others) ->
  dict_get data (u "forecasts") (JList []) = JList (JDict group :: groups) ->
  dict_get group (u "casts") (JList []) = JList (map JDict ds) ->
  ds <> [] ->
  query_weather_forecast str_other city days w
  = (Ok (join nl (live_lines (strip city) (slot_live str_other live)
                  ++ forecast_header
                     :: map (forecast_line str_other) (firstn 3 ds))),
     set_logged w2 (logged w2 ++ [LogInfo (u "成功获取 " ++ city ++ u " 天气预报")]))
  /\ length (map (forecast_line str_other) (firstn 3 ds)) = Nat.min 3 (length ds).
Proof.
  intros Hs Hf Hl Hfc Hc Hne. apply invalid_city_false_iff in Hs. split.
  - destruct (fetched_record _ _ Hf) as [Hcity Hn].
    assert (Hfmt :
      _format_weather_result str_other data true w2
      = (Ok (join nl (live_lines (city_text str_other data) (slot_live str_other live)
                      ++ forecast_header
                         :: map (forecast_line str_other) (firstn 3 ds))), w2)).
    { apply (@format_casts str_other data live group others groups (map JDict ds)
               (firstn 3 ds) w2 Hl Hfc Hc).
      - destruct ds; [congruence|discriminate].
      - rewrite firstn_map. apply all_dicts_map. }
    unfold query_weather_forecast. rewrite Hs. cbv zeta.
    rewrite bind_log, (@bind_run _ _ _ _ _ _ _ Hf), Hn.
    unfold format_data. rewrite (@bind_run _ _ _ _ _ _ _ Hfmt).
    rewrite bind_log. unfold ret, city_text. rewrite Hcity. reflexivity.
  - rewrite length_map. apply firstn_min.
Qed.

Lemma X13_forecast_action_witness :
  fst (query_weather_forecast str_blank (u "北京") 7
         (amap_answering (json_object weather_four_days)))
  = Ok (join nl (live_lines (strip (u "北京")) (slot_live str_blank live_sample)
                 ++ forecast_header
                    :: map (forecast_line str_blank)
                         (firstn 3 [cast_sample "2026-01-29" "4";
                                    cast_sample "2026-01-30" "5";
                                    cast_sample "2026-01-31" "6";
                                    cast_sample "2026-02-01" "7"]))).
Proof.
  assert (Hs : strip (u "北京") <> []) by (vm_compute; discriminate).
  refine (f_equal fst
    (proj1 (@X13_forecast_action_success str_blank (u "北京") 7
              (amap_answering (json_object weather_four_days)) _
              [(u "city", JStr (strip (u "北京")));
               (u "lives", JList [JDict live_sample]);
               (u "forecasts", JList [JDict group_four_days])]
              live_sample group_four_days [] []
              [cast_sample "2026-01-29" "4"; cast_sample "2026-01-30" "5";
               cast_sample "2026-01-31" "6"; cast_sample "2026-02-01" "7"]
              Hs _ _ _ _ _))).
  - vm_compute. reflexivity.
  - vm_compute. reflexivity.
  - vm_compute. reflexivity.
  - vm_compute. reflexivity.
  - discriminate.
Defined.

(** ** More on the formatter *)

(** X14. A forecast is all or nothing: when one of the first three casts is
    not a JSON object the enabled forecast raises [AttributeError] and no
    text is returned, although the same report renders its live lines with
    the forecast disabled. *)
Theorem X14_malformed_cast_raises str_other (data live group : pydict)
    (others groups casts : list json) (w : world) :
  dict_get data (u "lives") (JList []) = JList (JDict live :: others) ->
  dict_get data (u "forecasts") (JList []) = JList (JDict group :: groups) ->
  dict_get group (u "casts") (JList []) = JList casts ->
  (forall ds, firstn 3 casts <> map JDict ds) ->
  _format_weather_result str_other data true w = (Raise AttributeError, w)
  /\ _format_weather_result str_other data false w
     = (Ok (join nl (live_lines (city_text str_other data) (slot_live str_other live))), w).
Proof.
  intros Hl Hf Hc Hbad. split; [|now apply format_live with (others := others)].
  unfold _format_weather_result. rewrite Hl, Hf.
  unfold bind, lift, ret, raise; simpl. rewrite Hc.
  destruct casts as [|c0 rest].
  { now destruct (Hbad []). }
  cbv beta iota delta [truthy py_first3].
  rewrite forecast_loop_run, (all_dicts_none Hbad). reflexivity.
Qed.

Lemma X14_malformed_cast_witness :
  _format_weather_result str_blank
    [(u "lives", JList [JDict live_sample]);
     (u "forecasts", JList [JDict [(u "casts", JList [JDict []; JNull])]])]
    true offline
  = (Raise AttributeError, offline).
Proof.
  refine (proj1 (@X14_malformed_cast_raises str_blank _ live_sample
                   [(u "casts", JList [JDict []; JNull])] [] []
                   [JDict []; JNull] offline _ _ _ _)).
  - vm_compute. reflexivity.
  - vm_compute. reflexivity.
  - vm_compute. reflexivity.
  - intros ds H. destruct ds as [|d0 [|d1 ds]]; discriminate H.
Defined.

Lemma format_raise_both str_other (data : pydict) (w : world) (e : exn) :
  _format_weather_result str_other data false w = (Raise e, w) ->
  _format_weather_result str_other data true w = (Raise e, w).
Proof.
  unfold _format_weather_result.
  destruct (negb (truthy (dict_get data (u "lives") (JList [])))); [discriminate|].
  unfold bind, lift, ret, raise; simpl.
  destruct (py_first (dict_get data (u "lives") (JList []))) as [live|e0];
    [|auto].
  destruct live; simpl; auto. discriminate.
Qed.

(** X15. Enabling the forecast only ever appends: for every report, if the
    formatter returns with the forecast disabled, then with it enabled it
    either raises or returns a text that starts with the disabled text; and
    if it raises with the forecast disabled, it raises the same exception
    with it enabled. *)
Theorem X15_forecast_only_appends str_other (data : pydict) (w : world) :
  match fst (_format_weather_result str_other data false w) with
  | Ok s0 =>
      match fst (_format_weather_result str_other data true w) with
      | Ok s => exists suffix, s = s0 ++ suffix
      | Raise _ => True
      end
  | Raise e => fst (_format_weather_result str_other data true w) = Raise e
  end.
Proof.
  destruct (format_silent str_other data false) as [r0 H0].
  destruct (format_silent str_other data true) as [r1 H1].
  rewrite H0. simpl. destruct r0 as [s0|e].
  - rewrite H1. simpl. destruct r1 as [s|e1]; [|exact I].
    destruct (format_forecast_inv str_other data w (H1 w)) as (s0' & Hs0 & Hs).
    rewrite H0 in Hs0. injection Hs0 as <-.
    destruct Hs as [->|(ds & _ & ->)].
    + exists []. now rewrite app_nil_r.
    + rewrite join_cons by discriminate. eauto.
  - now rewrite (@format_raise_both str_other data w e (H0 w)).
Qed.

(** ** The forecast action and the day count *)

(** What an enabled forecast returns on a report with live data: the
    forecast-disabled text alone when there are no forecasts or the first
    group has no casts, and otherwise that text, the header, and the lines of
    the first three casts at most, each of them a JSON object. *)
Lemma format_forecast_cases str_other (data : pydict) (w w' : world) (s : pystr) :
  truthy (dict_get data (u "lives") (JList [])) = true ->
  _format_weather_result str_other data true w = (Ok s, w') ->
  exists s0,
    _format_weather_result str_other data false w = (Ok s0, w)
    /\ ((s = s0
         /\ (truthy (dict_get data (u "forecasts") (JList [])) = false
             \/ exists group groups,
                  dict_get data (u "forecasts") (JList [])
                  = JList (JDict group :: groups)
                  /\ truthy (dict_get group (u "casts") (JList [])) = false))
        \/ exists (group : pydict) (groups casts : list json) (ds : list pydict),
             dict_get data (u "forecasts") (JList []) = JList (JDict group :: groups)
             /\ dict_get group (u "casts") (JList []) = JList casts
             /\ map JDict ds = firstn 3 casts
             /\ 1 <= length ds <= 3
             /\ s = join nl (s0 :: forecast_header
                              :: map (forecast_line str_other) ds)).
Proof.
  intros Hlives. unfold _format_weather_result. rewrite Hlives.
  unfold bind, lift, ret, raise; simpl.
  destruct (py_first (dict_get data (u "lives") (JList []))) as [live|e];
    [|discriminate].
  destruct live; try discriminate. simpl.
  destruct (dict_get data (u "forecasts") (JList [])) as [| | | |fs|fs|fs] eqn:Hf;
    simpl.
  - intros [= <- <-]. eexists. split; [reflexivity|]. left; auto.
  - destruct b; [discriminate|].
    intros [= <- <-]. eexists. split; [reflexivity|]. left; auto.
  - destruct (negb (z =? 0)%Z); [discriminate|].
    intros [= <- <-]. eexists. split; [reflexivity|]. left; auto.
  - destruct (negb (PrimFloat.eqb f 0)); [discriminate|].
    intros [= <- <-]. eexists. split; [reflexivity|]. left; auto.
  - destruct fs; [|discriminate].
    intros [= <- <-]. eexists. split; [reflexivity|]. left; auto.
  - destruct fs as [|first groups].
    { intros [= <- <-]. eexists. split; [reflexivity|]. left; auto. }
    destruct first as [| | | | | |group]; try discriminate. simpl.
    destruct (truthy (dict_get group (u "casts") (JList []))) eqn:Ht.
    2:{ intros [= <- <-]. eexists. split; [reflexivity|]. left. split; [reflexivity|].
        right. exists group, groups. auto. }
    destruct (dict_get group (u "casts") (JList [])) as [| | | |cs|cs|cs] eqn:Hc;
      try discriminate.
    + destruct cs as [|c cs]; [discriminate Ht|].
      simpl. discriminate.
    + unfold py_first3. rewrite forecast_loop_run.
      destruct (all_dicts (firstn 3 cs)) as [ds|] eqn:Hds; [|discriminate].
      intros [= <- <-]. eexists. split; [reflexivity|]. right.
      exists group, groups, cs, ds.
      split; [reflexivity|]. split; [exact Hc|].
      split; [symmetry; apply (all_dicts_inv _ Hds)|]. split.
      * rewrite (all_dicts_length _ Hds).
        destruct cs as [|c0 [|c1 [|c2 [|c3 cs]]]]; simpl; try lia.
        discriminate Ht.
      * apply join_seven. discriminate.
  - destruct fs; [|discriminate].
    intros [= <- <-]. eexists. split; [reflexivity|]. left; auto.
Qed.

(** The forecast action after its lookup. *)
Lemma forecast_action_run str_other (city : pystr) (days : Z) (w w2 : world)
    (o : option pydict) :
  invalid_city city = false ->
  _get_weather_from_amap (strip city)
    (set_logged w
       (logged w
        ++ [LogInfo (u "查询城市天气预报: " ++ city ++ u ", "
                     ++ of_Z (Z.min (Z.max days 1) 7) ++ u "天")]))
  = (Ok o, w2) ->
  match o with
  | None =>
      query_weather_forecast str_other city days w
      = (Ok (u "❌ 无法获取 " ++ city ++ u " 的天气信息"), w2)
  | Some data =>
      exists r,
        _format_weather_result str_other data true w2 = (r, w2)
        /\ fst (query_weather_forecast str_other city days w) = r
  end.
Proof.
  intros Hv Hf. unfold query_weather_forecast. rewrite Hv. cbv zeta.
  rewrite bind_log, (@bind_run _ _ _ _ _ _ _ Hf).
  destruct o as [data|]; [|reflexivity].
  destruct (fetched_record _ _ Hf) as [_ Hn]. rewrite Hn.
  unfold format_data.
  destruct (format_silent str_other data true) as [r Hr].
  exists r. split; [apply Hr|].
  unfold bind at 1. rewrite Hr. destruct r; reflexivity.
Qed.

Lemma fetched_lives (city : pystr) (w w' : world) (data : pydict) :
  _get_weather_from_amap city w = (Ok (Some data), w') ->
  truthy (dict_get data (u "lives") (JList [])) = true.
Proof.
  intros H.
  destruct (fetch_some_inv city w H)
    as (geo & code & weather & lives & _ & _ & _ & _ & Ht & ->).
  assert (E : dict_get [(u "city", JStr city); (u "lives", lives);
                        (u "forecasts", dict_get weather (u "forecasts") (JList []))]
                (u "lives") (JList []) = lives) by (vm_compute; reflexivity).
  now rewrite E.
Qed.

(** C1. For a valid city, the forecast query clamps [days] into 1..7 (the
    clamped value is the one it logs: below 1 it is 1, above 7 it is 7, in
    between it is [days]; 0 behaves as 1, 10 as 7, and 5 stays 5), and yet the
    returned text never depends on [days]: any two day counts give the same
    result. That result is fixed by what the lookup returned: the failure
    text when it returned nothing, and otherwise what the formatter gives for
    the returned record; when that is a text, it is the forecast-disabled
    text of the record, alone (no forecasts, or no casts in the first group)
    or followed by the header and the lines of the first three casts of the
    first group, so by three forecast lines at most. *)
Theorem C1_days_clamped_but_unused str_other (city : pystr) (w : world) (d1 d2 : Z) :
  invalid_city city = false ->
  (exists c later,
     (1 <= c <= 7)%Z
     /\ (d1 < 1 -> c = 1)%Z /\ (7 < d1 -> c = 7)%Z /\ (1 <= d1 <= 7 -> c = d1)%Z
     /\ logged (snd (query_weather_forecast str_other city d1 w))
        = logged w
          ++ LogInfo (u "查询城市天气预报: " ++ city ++ u ", " ++ of_Z c ++ u "天")
          :: later)
  /\ query_weather_forecast str_other city 0 w
     = query_weather_forecast str_other city 1 w
  /\ query_weather_forecast str_other city 10 w
     = query_weather_forecast str_other city 7 w
  /\ (exists later,
        logged (snd (query_weather_forecast str_other city 5 w))
        = logged w
          ++ LogInfo (u "查询城市天气预报: " ++ city ++ u ", " ++ u "5" ++ u "天")
          :: later)
  /\ fst (query_weather_forecast str_other city d1 w)
     = fst (query_weather_forecast str_other city d2 w)
  /\ (exists o w2,
        _get_weather_from_amap (strip city)
          (set_logged w
             (logged w
              ++ [LogInfo (u "查询城市天气预报: " ++ city ++ u ", "
                           ++ of_Z (Z.min (Z.max d1 1) 7) ++ u "天")]))
        = (Ok o, w2)
        /\ match o with
           | None =>
               query_weather_forecast str_other city d1 w
               = (Ok (u "❌ 无法获取 " ++ city ++ u " 的天气信息"), w2)
           | Some data =>
               exists r,
                 _format_weather_result str_other data true w2 = (r, w2)
                 /\ fst (query_weather_forecast str_other city d1 w) = r
                 /\ forall s,
                      r = Ok s ->
                      exists s0,
                        _format_weather_result str_other data false w2 = (Ok s0, w2)
                        /\ ((s = s0
                             /\ (truthy (dict_get data (u "forecasts") (JList []))
                                 = false
                                 \/ exists group groups,
                                      dict_get data (u "forecasts") (JList [])
                                      = JList (JDict group :: groups)
                                      /\ truthy (dict_get group (u "casts") (JList []))
                                         = false))
                            \/ exists (group : pydict) (groups casts : list json)
                                  (ds : list pydict),
                                 dict_get data (u "forecasts") (JList [])
                                 = JList (JDict group :: groups)
                                 /\ dict_get group (u "casts") (JList []) = JList casts
                                 /\ map JDict ds = firstn 3 casts
                                 /\ length (map (forecast_line str_other) ds) <= 3
                                 /\ s = join nl
                                          (s0 :: forecast_header
                                           :: map (forecast_line str_other) ds))
           end).
Proof.
  intros Hv.
  destruct (forecast_query_run str_other city w Hv) as (r & requests & records & Hrun).
  split; [|split; [|split; [|split; [|split]]]].
  - exists (Z.min (Z.max d1 1) 7), records. rewrite Hrun. simpl.
    repeat split; lia.
  - rewrite !Hrun. reflexivity.
  - rewrite !Hrun. reflexivity.
  - exists records. rewrite Hrun. simpl. now rewrite <- literal_five.
  - now rewrite !Hrun.
  - match goal with
    | |- context [_get_weather_from_amap (strip city) ?w1] =>
        destruct (fetch_never_raises (strip city) w1) as (o & w2 & Hf)
    end.
    exists o, w2. split; [exact Hf|].
    pose proof (forecast_action_run str_other city d1 w Hv Hf) as Hrun'.
    destruct o as [data|]; [|exact Hrun'].
    destruct Hrun' as (r' & Hr' & Hq). exists r'.
    split; [exact Hr'|]. split; [exact Hq|].
    intros s ->.
    destruct (format_forecast_cases str_other data w2 (fetched_lives _ _ Hf) Hr')
      as (s0 & H0 & Hcases).
    exists s0. split; [exact H0|].
    destruct Hcases as [Hsame|(group & groups & casts & ds & Hg & Hc & Hm & Hlen & Hs)].
    + left. exact Hsame.
    + right. exists group, groups, casts, ds.
      rewrite length_map. repeat split; try assumption. lia.
Qed.

Lemma C1_days_witness :
  fst (query_weather_forecast str_blank (u "北京") 0
         (amap_answering (json_object weather_four_days)))
  = fst (query_weather_forecast str_blank (u "北京") 10
           (amap_answering (json_object weather_four_days)))
  /\ fst (query_weather_forecast str_blank (u "北京") 10
            (amap_answering (json_object weather_four_days)))
     = Ok (join nl [u "📍 城市: 北京"; u "🌡️ 温度: 25°C"; u "💧 湿度: 50%";
                    u "🌬️ 风力: 3 北级"; u "☁️ 天气: 晴"; u "👁️ 能见度: 10米";
                    u "📊 报告时间: 2026-01-29 12:00:00";
                    forecast_header;
                    u "  2026-01-29 (周4): ☀️晴 8°C / 🌙多云 -2°C";
                    u "  2026-01-30 (周5): ☀️晴 8°C / 🌙多云 -2°C";
                    u "  2026-01-31 (周6): ☀️晴 8°C / 🌙多云 -2°C"]).
Proof.
  assert (Hv : invalid_city (u "北京") = false) by (vm_compute; reflexivity).
  split.
  - exact (proj1 (proj2 (proj2 (proj2 (proj2
      (@C1_days_clamped_but_unused str_blank (u "北京")
         (amap_answering (json_object weather_four_days)) 0 10 Hv)))))).
  - vm_compute. reflexivity.
Defined.
